(** * Deep-Research-Agent: the orchestration core, embedded and verified

    A shallow embedding of the planning / execution / synthesis / citation
    workflow of the repository:

    - [src/state/schema.py]            the data model,
    - [src/agents/subagent.py]         the worker and the batch executor,
    - [src/agents/lead_researcher.py]  the planning and synthesis nodes,
    - [src/agents/citation_agent.py]   the citation node,
    - [src/graph/workflow.py]          the routing functions and the graph.

    The language model, the ReAct agent and the file system are external:
    what they answer is an input of the model (an oracle indexed by the
    superstep at which the call is made).  Exceptions are explicit results,
    Python ints are [Z], floats that are only compared are canonical
    rationals [Qc], dictionaries used as maps are [gmap]. *)

From Stdlib Require Import ZArith QArith Qcanon.
From stdpp Require Import base option list strings gmap pretty.

Set Warnings "-register-all".

Local Open Scope Z_scope.
Local Open Scope string_scope.
Local Open Scope list_scope.

(** ** Exceptions as values *)

(** An exception is identified by the text [str(e)] that the code formats
    into messages. *)
Definition exception := string.

Inductive result (A : Type) : Type :=
| Ok (a : A)
| Raise (e : exception).
Arguments Ok {A} a.
Arguments Raise {A} e.

#[global] Instance result_ret : MRet result := fun A a => Ok a.

#[global] Instance result_bind : MBind result := fun A B k r =>
  match r with
  | Ok a => k a
  | Raise e => Raise e
  end.

(** The line feed of the Python literals. *)
Definition nl : string := String (Ascii.ascii_of_nat 10) "".

(** ** JSON values, as [json.loads] returns them *)

Inductive json : Type :=
| JNull
| JBool (b : bool)
| JNum (q : Qc)
| JStr (s : string)
| JArr (l : list json)
| JObj (m : gmap string json).

(** ** src/state/schema.py *)

(** A source is a [dict]; the keys the code reads are optional
    ([src.get('title', 'Unknown')]). *)
Module Source.
Record t : Type := mk
  { url : option string;
    title : option string;
    snippet : option string;
    score : option Qc }.

#[global] Instance eq_dec : EqDecision t.
Proof. solve_decision. Defined.
End Source.

Module SubagentTask.
Record t : Type := mk
  { task_id : string;
    objective : string;
    search_strategy : string;
    output_format : string;
    tool_guidance : string;
    boundaries : string }.

(** The field names of the model, in declaration order. *)
Definition fields : list string :=
  ["task_id"; "objective"; "search_strategy"; "output_format";
   "tool_guidance"; "boundaries"].

(** A [str] field accepts a JSON string and nothing else. *)
Definition str_field (m : gmap string json) (k : string) : option string :=
  match m !! k with
  | Some (JStr s) => Some s
  | _ => None
  end.

(** [SubagentTask] built from the unpacked [task_data]: every field is
    required and must be a string (pydantic 2 does not coerce numbers to
    [str]); keys that are not fields are ignored.  [None] is pydantic's
    [ValidationError] (or the [TypeError] of unpacking a non-mapping).  No
    field has a length constraint. *)
Definition construct (task_data : json) : option t :=
  match task_data with
  | JObj m =>
      i ← str_field m "task_id";
      o ← str_field m "objective";
      s ← str_field m "search_strategy";
      f ← str_field m "output_format";
      g ← str_field m "tool_guidance";
      b ← str_field m "boundaries";
      Some (mk i o s f g b)
  | _ => None
  end.
End SubagentTask.

Module SubagentResult.
Record t : Type := mk
  { task_id : string;
    findings : string;
    sources : list Source.t;
    confidence : Qc;
    gaps : list string }.

(** [confidence: float = Field(ge=0, le=1)] *)
Definition confidence_ok (c : Qc) : bool :=
  (Qle_bool 0 c && Qle_bool c 1)%bool.

(** [SubagentResult(task_id=..., ...)] over well-typed arguments: the
    range of [confidence] is the constraint left to check.  pydantic's
    [ValidationError] is a [ValueError]. *)
Definition construct (i f : string) (s : list Source.t) (c : Qc)
    (g : list string) : result t :=
  if confidence_ok c then Ok (mk i f s c g)
  else Raise "ValidationError: confidence".
End SubagentResult.

Module ResearchPlan.
Record t : Type := mk
  { query_complexity : string;
    estimated_subagents : Z;
    strategy : string;
    subagent_tasks : list SubagentTask.t }.

(** [estimated_subagents: int = Field(ge=1, le=15)] *)
Definition construct (c : string) (n : Z) (s : string)
    (ts : list SubagentTask.t) : result t :=
  if ((1 <=? n)%Z && (n <=? 15)%Z)%bool then Ok (mk c n s ts)
  else Raise "ValidationError: estimated_subagents".
End ResearchPlan.

Inductive message : Type :=
| HumanMessage (content : string)
| AIMessage (content : string).

Module AgentState.
Record t : Type := mk
  { messages : list message;
    research_plan : option ResearchPlan.t;
    subagent_tasks : list SubagentTask.t;
    subagent_results : list SubagentResult.t;
    memory_context : string;
    iteration_count : Z;
    max_iterations : Z;
    research_complete : bool;
    all_sources : list Source.t;
    conversation_id : string;
    output_dir : string;
    provider : string }.
End AgentState.

(** A node returns a partial dictionary; LangGraph merges it into the
    state: [messages] has the reducer [operator.add], every other key that
    is present replaces the old value, absent keys ([None] here) keep it. *)
Module Update.
Record t : Type := mk
  { messages : list message;
    research_plan : option ResearchPlan.t;
    subagent_tasks : option (list SubagentTask.t);
    subagent_results : option (list SubagentResult.t);
    memory_context : option string;
    iteration_count : option Z;
    research_complete : option bool;
    all_sources : option (list Source.t) }.

(** The update [{"messages": msgs}]. *)
Definition only_messages (msgs : list message) : t :=
  mk msgs None None None None None None None.

Definition apply (s : AgentState.t) (u : t) : AgentState.t :=
  {| AgentState.messages := AgentState.messages s ++ messages u;
     AgentState.research_plan :=
       match research_plan u with
       | Some p => Some p
       | None => AgentState.research_plan s
       end;
     AgentState.subagent_tasks :=
       default (AgentState.subagent_tasks s) (subagent_tasks u);
     AgentState.subagent_results :=
       default (AgentState.subagent_results s) (subagent_results u);
     AgentState.memory_context :=
       default (AgentState.memory_context s) (memory_context u);
     AgentState.iteration_count :=
       default (AgentState.iteration_count s) (iteration_count u);
     AgentState.max_iterations := AgentState.max_iterations s;
     AgentState.research_complete :=
       default (AgentState.research_complete s) (research_complete u);
     AgentState.all_sources :=
       default (AgentState.all_sources s) (all_sources u);
     AgentState.conversation_id := AgentState.conversation_id s;
     AgentState.output_dir := AgentState.output_dir s;
     AgentState.provider := AgentState.provider s |}.
End Update.

(** ** src/agents/subagent.py *)

(** The JSON object of a worker's final message, over well-typed values;
    [None] is an absent key.  Ill-typed values raise inside the [try] and
    arrive as [DecodeValueError] or [DecodeOtherError]. *)
Record worker_data : Type := mk_worker_data
  { wd_findings : option string;
    wd_sources : option (list Source.t);
    wd_confidence : option Qc;
    wd_gaps : option (list string) }.

(** What [json.loads] and the field reads do on the final message. *)
Inductive decode_result : Type :=
| Decoded (d : worker_data)
| DecodeValueError
| DecodeOtherError (e : exception).

(** One run of the ReAct agent: it raises (model construction, a tool, the
    agent itself), or it ends with a final message. *)
Inductive agent_run : Type :=
| AgentRaises (e : exception)
| AgentReplies (content : string) (d : decode_result).

Definition execute_subagent_task (task : SubagentTask.t) (run : agent_run)
    : result SubagentResult.t :=
  match run with
  | AgentRaises e => Raise e
  | AgentReplies content dec =>
      let not_json :=
        SubagentResult.construct (SubagentTask.task_id task) content []
          (Q2Qc (5 # 10)) ["Response was not in expected JSON format"] in
      match dec with
      | Decoded data =>
          match
            SubagentResult.construct (SubagentTask.task_id task)
              (default content (wd_findings data))
              (default [] (wd_sources data))
              (default (Q2Qc (7 # 10)) (wd_confidence data))
              (default [] (wd_gaps data))
          with
          | Ok r => Ok r
          | Raise _ => not_json
          end
      | DecodeValueError => not_json
      | DecodeOtherError e =>
          SubagentResult.construct (SubagentTask.task_id task) content []
            (Q2Qc (3 # 10)) ["Error parsing response: " +:+ e]
      end
  end.

(** [asyncio.gather( *coroutines, return_exceptions=True)]: one slot per
    coroutine, in the order of the arguments, holding its value or the
    exception it raised. *)
Definition gather {A} (coroutines : list (result A)) : list (result A) :=
  coroutines.

(** [tasks[i]] for [i] from [enumerate]. *)
Definition getitem {A} (l : list A) (i : nat) : result A :=
  match l !! i with
  | Some x => Ok x
  | None => Raise "IndexError: list index out of range"
  end.

(** The loop [for i, result in enumerate(results)], from index [i] on. *)
Fixpoint collect_results (tasks : list SubagentTask.t) (i : nat)
    (results : list (result SubagentResult.t))
    (valid_results : list SubagentResult.t)
    : result (list SubagentResult.t) :=
  match results with
  | [] => Ok valid_results
  | Raise e :: rest =>
      task ← getitem tasks i;
      failed ← SubagentResult.construct (SubagentTask.task_id task)
                 ("Error: " +:+ e) [] 0%Qc ["Subagent execution failed"];
      collect_results tasks (S i) rest (valid_results ++ [failed])
  | Ok r :: rest =>
      collect_results tasks (S i) rest (valid_results ++ [r])
  end.

(** [runs i] is what the [i]-th coroutine does; the coroutines share no
    state, so nothing else decides a slot. *)
Definition run_subagents_parallel (tasks : list SubagentTask.t)
    (runs : nat -> agent_run) : result (list SubagentResult.t) :=
  let coroutines :=
    imap (fun i task => execute_subagent_task task (runs i)) tasks in
  let results := gather coroutines in
  collect_results tasks 0 results [].

Definition subagent_executor_node (state : AgentState.t)
    (runs : nat -> agent_run) : result Update.t :=
  let tasks := AgentState.subagent_tasks state in
  match tasks with
  | [] => Ok (Update.only_messages [AIMessage "No subagent tasks to execute."])
  | _ =>
      results ← run_subagents_parallel tasks runs;
      Ok {| Update.messages :=
              [AIMessage ("Executed " +:+ pretty (length results)
                          +:+ " subagent tasks in parallel.")];
            Update.research_plan := None;
            Update.subagent_tasks := None;
            Update.subagent_results := Some results;
            Update.memory_context := None;
            Update.iteration_count := None;
            Update.research_complete := None;
            Update.all_sources := None |}
  end.

(** ** src/utils/memory.py, as far as the nodes see it *)

(** The [MemoryStore] writes files and returns their names; a write can
    raise.  What it returns at a given call is an input of the model. *)
Record MemoryStore : Type := mk_MemoryStore
  { save_plan : result string;
    update_progress : result string;
    save_final_report : result string }.

(** ** src/agents/lead_researcher.py *)

(** An answer of the language model after [json.loads]: the decoded
    object, or the exception of the decoding.  The decoded objects below
    hold well-typed values, [None] being an absent key; reading an
    ill-typed value raises inside the same [try], which is the case
    [Unparsable] again. *)
Inductive llm_response (A : Type) : Type :=
| Unparsable (e : exception)
| Parsed (data : A).
Arguments Unparsable {A} e.
Arguments Parsed {A} data.

Record plan_data : Type := mk_plan_data
  { pd_query_complexity : option string;
    pd_estimated_subagents : option Z;
    pd_strategy : option string;
    pd_subagent_tasks : option (list json) }.

Record synthesis_data : Type := mk_synthesis_data
  { sd_synthesis : option string;
    sd_needs_more_research : option bool;
    sd_next_tasks : option (list json) }.

(** [for msg in reversed(messages)]: the content of the first human message
    met, [""] when there is none; [rev_messages] is the reversed list. *)
Fixpoint first_human_content (rev_messages : list message) : string :=
  match rev_messages with
  | [] => ""
  | HumanMessage content :: _ => content
  | AIMessage _ :: rest => first_human_content rest
  end.

(** The comprehension that builds a [SubagentTask] from every entry of
    the list: the first invalid entry raises. *)
Fixpoint construct_tasks (l : list json) : result (list SubagentTask.t) :=
  match l with
  | [] => Ok []
  | task :: rest =>
      match SubagentTask.construct task with
      | Some t => ts ← construct_tasks rest; Ok (t :: ts)
      | None => Raise "ValidationError: SubagentTask"
      end
  end.

(** The body of the [try] of the planning node. *)
Definition planning_try (response : llm_response plan_data)
    (memory : MemoryStore) : result Update.t :=
  match response with
  | Unparsable e => Raise e
  | Parsed data =>
      subagent_tasks ← construct_tasks (default [] (pd_subagent_tasks data));
      research_plan ←
        ResearchPlan.construct
          (default "moderate" (pd_query_complexity data))
          (default 2 (pd_estimated_subagents data))
          (default "" (pd_strategy data))
          subagent_tasks;
      plan_file ← save_plan memory;
      Ok {| Update.messages :=
              [AIMessage ("Research plan created with "
                          +:+ pretty (length subagent_tasks)
                          +:+ " subagents. Plan saved to " +:+ plan_file)];
            Update.research_plan := Some research_plan;
            Update.subagent_tasks := Some subagent_tasks;
            Update.subagent_results := None;
            Update.memory_context := None;
            Update.iteration_count := Some 1;
            Update.research_complete := None;
            Update.all_sources := None |}
  end.

Definition lead_researcher_planning_node (state : AgentState.t)
    (response : llm_response plan_data) (memory : MemoryStore) : Update.t :=
  let user_query :=
    first_human_content (reverse (AgentState.messages state)) in
  if decide (user_query = "") then
    Update.only_messages [AIMessage "No query found."]
  else
    match planning_try response memory with
    | Ok u => u
    | Raise e =>
        Update.only_messages
          [AIMessage ("Error creating research plan: " +:+ e)]
    end.

(** The inner loop [for src in result.sources]: append what is not yet in
    the list, compared as whole dictionaries. *)
Definition collect_sources (all_sources : list Source.t)
    (sources : list Source.t) : list Source.t :=
  foldl (fun acc src => if decide (src ∈ acc) then acc else acc ++ [src])
        all_sources sources.

(** The outer loop [for result in subagent_results], as far as it touches
    [all_sources]. *)
Definition merge_sources (all_sources : list Source.t)
    (subagent_results : list SubagentResult.t) : list Source.t :=
  foldl (fun acc result => collect_sources acc (SubagentResult.sources result))
        all_sources subagent_results.

Definition _create_synthesis_from_results
    (subagent_results : list SubagentResult.t) : string :=
  match subagent_results with
  | [] => "No research findings available."
  | _ =>
      foldl (fun synthesis result =>
               synthesis +:+ "### " +:+ SubagentResult.task_id result
               +:+ nl +:+ nl +:+ SubagentResult.findings result
               +:+ nl +:+ nl)
            ("## Research Findings" +:+ nl +:+ nl) subagent_results
  end.

(** [all(k in task_data for k in [...])] followed by the construction, both
    inside [try ... except Exception: pass].  On a value that is not an
    object the test raises or the unpacking does: the candidate is skipped
    either way. *)
Definition has_required_fields (task_data : json) : bool :=
  match task_data with
  | JObj m => forallb (fun k => bool_decide (is_Some (m !! k)))
                      SubagentTask.fields
  | _ => false
  end.

(** The loop [for task_data in data.get("next_tasks", [])]. *)
Definition validate_next_tasks (next_tasks : list json)
    : list SubagentTask.t :=
  foldl (fun new_tasks task_data =>
           if has_required_fields task_data then
             match SubagentTask.construct task_data with
             | Some t => new_tasks ++ [t]
             | None => new_tasks
             end
           else new_tasks)
        [] next_tasks.

(** The update of the paths that end the research. *)
Definition research_complete_update (all_sources : list Source.t)
    (synthesis : string) (msg : string) : Update.t :=
  {| Update.messages := [AIMessage msg];
     Update.research_plan := None;
     Update.subagent_tasks := None;
     Update.subagent_results := None;
     Update.memory_context := Some synthesis;
     Update.iteration_count := None;
     Update.research_complete := Some true;
     Update.all_sources := Some all_sources |}.

(** The body of the [try] of the synthesis node. *)
Definition synthesis_try (subagent_results : list SubagentResult.t)
    (iteration max_iterations : Z) (all_sources : list Source.t)
    (response : llm_response synthesis_data) (memory : MemoryStore)
    : result Update.t :=
  match response with
  | Unparsable e => Raise e
  | Parsed data =>
      let synthesis := default "" (sd_synthesis data) in
      let needs_more :=
        (default false (sd_needs_more_research data)
         && (iteration <? max_iterations)%Z)%bool in
      _ ← update_progress memory;
      let complete :=
        let synthesis :=
          if decide (synthesis = "")
          then _create_synthesis_from_results subagent_results
          else synthesis in
        research_complete_update all_sources synthesis
          ("Research complete after " +:+ pretty iteration
           +:+ " iterations. Proceeding to citation.") in
      if needs_more then
        let new_tasks :=
          validate_next_tasks (default [] (sd_next_tasks data)) in
        match new_tasks with
        | _ :: _ =>
            Ok {| Update.messages :=
                    [AIMessage ("Iteration " +:+ pretty iteration
                                +:+ " complete. Starting iteration "
                                +:+ pretty (iteration + 1)%Z +:+ " with "
                                +:+ pretty (length new_tasks)
                                +:+ " new tasks.")];
                  Update.research_plan := None;
                  Update.subagent_tasks := Some new_tasks;
                  Update.subagent_results := Some [];
                  Update.memory_context := None;
                  Update.iteration_count := Some (iteration + 1)%Z;
                  Update.research_complete := Some false;
                  Update.all_sources := Some all_sources |}
        | [] => Ok complete
        end
      else Ok complete
  end.

Definition lead_researcher_synthesis_node (state : AgentState.t)
    (response : llm_response synthesis_data) (memory : MemoryStore)
    : Update.t :=
  let subagent_results := AgentState.subagent_results state in
  let iteration := AgentState.iteration_count state in
  let max_iterations := AgentState.max_iterations state in
  let all_sources :=
    merge_sources (AgentState.all_sources state) subagent_results in
  match
    synthesis_try subagent_results iteration max_iterations all_sources
      response memory
  with
  | Ok u => u
  | Raise _ =>
      research_complete_update all_sources
        (_create_synthesis_from_results subagent_results)
        "Synthesis completed. Proceeding to citation."
  end.

(** ** src/agents/citation_agent.py *)

Record citation_data : Type := mk_citation_data
  { cd_report : option string;
    cd_citations_used : option (list Z) }.

(** [l[k]] for a Python int [k]: a negative index counts from the end,
    anything outside raises [IndexError]. *)
Definition py_getitem {A} (l : list A) (k : Z) : result A :=
  let n := Z.of_nat (length l) in
  let k' := if (k <? 0)%Z then (k + n)%Z else k in
  if ((0 <=? k')%Z && (k' <? n)%Z)%bool then getitem l (Z.to_nat k')
  else Raise "IndexError: list index out of range".

(** [[all_sources[i-1] for i in citations_used if 0 < i <= len(all_sources)]] *)
Fixpoint cited_comprehension (all_sources : list Source.t)
    (citations_used : list Z) : result (list Source.t) :=
  match citations_used with
  | [] => Ok []
  | i :: rest =>
      if ((0 <? i)%Z && (i <=? Z.of_nat (length all_sources))%Z)%bool then
        src ← py_getitem all_sources (i - 1)%Z;
        srcs ← cited_comprehension all_sources rest;
        Ok (src :: srcs)
      else cited_comprehension all_sources rest
  end.

(** [if citations_used: ... else: cited_sources = all_sources] *)
Definition select_cited_sources (all_sources : list Source.t)
    (citations_used : list Z) : result (list Source.t) :=
  match citations_used with
  | [] => Ok all_sources
  | _ :: _ => cited_comprehension all_sources citations_used
  end.

(** What [save_final_report] was asked to write. *)
Record final_report : Type := mk_final_report
  { fr_report : string;
    fr_sources : list Source.t }.

(** The body of the [try] of the citation node. *)
Definition citation_try (synthesis : string) (all_sources : list Source.t)
    (response : llm_response citation_data) (memory : MemoryStore)
    : result (Update.t * final_report) :=
  match response with
  | Unparsable e => Raise e
  | Parsed data =>
      let report := default synthesis (cd_report data) in
      let citations_used := default [] (cd_citations_used data) in
      cited_sources ← select_cited_sources all_sources citations_used;
      report_file ← save_final_report memory;
      Ok (Update.only_messages
            [AIMessage ("# Research Report" +:+ nl +:+ nl +:+ report
                        +:+ nl +:+ nl +:+ "---" +:+ nl
                        +:+ "*Report saved to: " +:+ report_file +:+ "*")],
          mk_final_report report cited_sources)
  end.

(** The node, with the report it saved, if it saved one. *)
Definition citation_agent_node (state : AgentState.t)
    (response : llm_response citation_data) (memory : MemoryStore)
    : Update.t * option final_report :=
  let synthesis := AgentState.memory_context state in
  let all_sources := AgentState.all_sources state in
  match citation_try synthesis all_sources response memory with
  | Ok (u, saved) => (u, Some saved)
  | Raise e =>
      (Update.only_messages
         [AIMessage ("# Research Report" +:+ nl +:+ nl +:+ synthesis
                     +:+ nl +:+ nl +:+ "---" +:+ nl
                     +:+ "*Note: Citation processing failed: " +:+ e
                     +:+ "*")],
       None)
  end.

(** ** src/graph/workflow.py *)

Definition should_continue_research (state : AgentState.t) : string :=
  if (AgentState.research_complete state
      || (AgentState.iteration_count state
          >=? AgentState.max_iterations state)%Z)%bool
  then "citation"
  else "continue".

Definition has_tasks (state : AgentState.t) : string :=
  match AgentState.subagent_tasks state with
  | _ :: _ => "execute"
  | [] => "synthesize"
  end.

Inductive node : Type :=
| lead_planning
| subagent_executor
| lead_synthesis
| citation_agent
| END.

#[global] Instance node_eq_dec : EqDecision node.
Proof. solve_decision. Defined.

(** The path maps of the two conditional edges of [build_graph]. *)
Definition planning_paths : gmap string node :=
  {[ "execute" := subagent_executor; "synthesize" := lead_synthesis ]}.

Definition synthesis_paths : gmap string node :=
  {[ "continue" := lead_planning; "citation" := citation_agent ]}.

(** The edge taken out of a node, given the state after the node's update. *)
Definition next_node (n : node) (state : AgentState.t) : option node :=
  match n with
  | lead_planning => planning_paths !! has_tasks state
  | subagent_executor => Some lead_synthesis
  | lead_synthesis => synthesis_paths !! should_continue_research state
  | citation_agent => Some END
  | END => None
  end.

Definition get_initial_state (query conversation_id output_dir
    provider : string) : AgentState.t :=
  {| AgentState.messages := [HumanMessage query];
     AgentState.research_plan := None;
     AgentState.subagent_tasks := [];
     AgentState.subagent_results := [];
     AgentState.memory_context := "";
     AgentState.iteration_count := 0;
     AgentState.max_iterations := 3;
     AgentState.research_complete := false;
     AgentState.all_sources := [];
     AgentState.conversation_id := conversation_id;
     AgentState.output_dir := output_dir;
     AgentState.provider := provider |}.

(** [main]: [initial_state["max_iterations"] = args.max_iterations]. *)
Definition main_initial_state (query conversation_id output_dir
    provider : string) (max_iterations : Z) : AgentState.t :=
  let s := get_initial_state query conversation_id output_dir provider in
  {| AgentState.messages := AgentState.messages s;
     AgentState.research_plan := AgentState.research_plan s;
     AgentState.subagent_tasks := AgentState.subagent_tasks s;
     AgentState.subagent_results := AgentState.subagent_results s;
     AgentState.memory_context := AgentState.memory_context s;
     AgentState.iteration_count := AgentState.iteration_count s;
     AgentState.max_iterations := max_iterations;
     AgentState.research_complete := AgentState.research_complete s;
     AgentState.all_sources := AgentState.all_sources s;
     AgentState.conversation_id := AgentState.conversation_id s;
     AgentState.output_dir := AgentState.output_dir s;
     AgentState.provider := AgentState.provider s |}.

(** *** Running the graph *)

(** Everything outside the program, by superstep: the answers of the
    language model in its three roles, the runs of the workers of a batch,
    and the results of the file writes. *)
Record Oracle : Type := mk_Oracle
  { planner : nat -> llm_response plan_data;
    workers : nat -> nat -> agent_run;
    synthesizer : nat -> llm_response synthesis_data;
    citer : nat -> llm_response citation_data;
    memory : nat -> MemoryStore }.

Definition run_node (o : Oracle) (t : nat) (n : node) (state : AgentState.t)
    : result Update.t :=
  match n with
  | lead_planning =>
      Ok (lead_researcher_planning_node state (planner o t) (memory o t))
  | subagent_executor => subagent_executor_node state (workers o t)
  | lead_synthesis =>
      Ok (lead_researcher_synthesis_node state (synthesizer o t) (memory o t))
  | citation_agent =>
      Ok (fst (citation_agent_node state (citer o t) (memory o t)))
  | END => Raise "END is not a node"
  end.

(** One superstep: run the node, merge its update, follow the edge. *)
Definition superstep (o : Oracle) (t : nat) (n : node) (state : AgentState.t)
    : result (node * AgentState.t) :=
  u ← run_node o t n state;
  let state' := Update.apply state u in
  match next_node n state' with
  | Some n' => Ok (n', state')
  | None => Raise "no edge"
  end.

(** [fuel] supersteps from the node [n], entered at superstep [t]; the run
    stops at [END]. *)
Fixpoint run (o : Oracle) (fuel : nat) (t : nat) (n : node)
    (state : AgentState.t) : result (node * AgentState.t) :=
  match fuel with
  | O => Ok (n, state)
  | S fuel' =>
      match n with
      | END => Ok (END, state)
      | _ =>
          '(n', state') ← superstep o t n state;
          run o fuel' (S t) n' state'
      end
  end.


(** ** src/tools/search.py *)

(** An entry of the [results] list of a Tavily response, and the response:
    dictionaries whose keys can be absent. *)
Record tavily_result : Type := mk_tavily_result
  { tr_title : option string;
    tr_url : option string;
    tr_content : option string;
    tr_score : option Qc }.

Record tavily_response : Type := mk_tavily_response
  { ta_answer : option string;
    ta_results : option (list tavily_result) }.

(** The search service: what the [k]-th call of [tavily_client.search]
    inside one tool invocation returns for a query, or the exception it
    raises. *)
Definition tavily := nat -> string -> result tavily_response.

(** [get_tavily_client]: [api_key] is [os.getenv("TAVILY_API_KEY")]; the
    client is represented by the service behind it. *)
Definition get_tavily_client (api_key : option string) (service : tavily)
    : result tavily := 
  match api_key with
  | None | Some "" =>
      Raise "TAVILY_API_KEY not found in environment variables"
  | Some _ => Ok service
  end.

(** The text that [search_web] writes for the [i]-th result. *)
Definition search_web_entry (i : nat) (r : tavily_result) : string :=
  pretty i +:+ ". " +:+ default "Untitled" (tr_title r) +:+ nl
  +:+ "   URL: " +:+ default "" (tr_url r) +:+ nl
  +:+ "   " +:+ default "" (tr_content r) +:+ nl +:+ nl.

(** The loop [for i, result in enumerate(..., 1)], from the index [i]. *)
Fixpoint search_web_loop (i : nat) (results : list tavily_result)
    (results_text : string) : string :=
  match results with
  | [] => results_text
  | r :: rest =>
      search_web_loop (S i) rest
        (results_text
         +:+ (pretty i +:+ ". " +:+ default "Untitled" (tr_title r) +:+ nl)
         +:+ ("   URL: " +:+ default "" (tr_url r) +:+ nl)
         +:+ ("   " +:+ default "" (tr_content r) +:+ nl +:+ nl))
  end.

Definition search_web (api_key : option string) (service : tavily)
    (query : string) : string :=
  match
    tavily_client ← get_tavily_client api_key service;
    response ← tavily_client 0%nat query;
    let results_text :=
      search_web_loop 1 (default [] (ta_results response))
        ("Search results for: " +:+ query +:+ nl +:+ nl) in
    Ok (match ta_results response with
        | Some (_ :: _) => results_text
        | _ => "No results found."
        end)
  with
  | Ok text => text
  | Raise e => "Search error: " +:+ e
  end.

(** An entry of the list that [search_web_with_sources] returns. *)
Record search_entry : Type := mk_search_entry
  { se_title : string;
    se_url : string;
    se_content : string;
    se_score : Qc;
    se_type : string }.

Definition source_entry (r : tavily_result) : search_entry :=
  mk_search_entry (default "Unknown" (tr_title r)) (default "" (tr_url r))
    (default "" (tr_content r)) (default 0%Qc (tr_score r)) "source".

Definition search_web_with_sources (api_key : option string)
    (service : tavily) (query : string) : list search_entry :=
  match
    tavily_client ← get_tavily_client api_key service;
    response ← tavily_client 0%nat query;
    let results :=
      match ta_answer response with
      | None | Some "" => []
      | Some answer =>
          [mk_search_entry "AI Summary" "" answer 1%Qc "answer"]
      end in
    let results :=
      foldl (fun results r => results ++ [source_entry r]) results
            (default [] (ta_results response)) in
    Ok (match results with
        | [] => [mk_search_entry "No Results" "" "No results found." 0%Qc
                   "error"]
        | _ :: _ => results
        end)
  with
  | Ok results => results
  | Raise e => [mk_search_entry "Search Error" "" e 0%Qc "error"]
  end.

(** [needle in s] for two strings. *)
Fixpoint contains (needle s : string) : bool :=
  (String.prefix needle s
   || match s with
      | EmptyString => false
      | String _ rest => contains needle rest
      end)%bool.

(** [s.lower()] on the letters A to Z; the other characters the tool
    looks for are not the lower case of anything else. *)
Definition lower_char (c : Ascii.ascii) : Ascii.ascii :=
  let n := Ascii.nat_of_ascii c in
  if ((65 <=? n)%nat && (n <=? 90)%nat)%bool
  then Ascii.ascii_of_nat (n + 32)
  else c.

Fixpoint lower (s : string) : string :=
  match s with
  | EmptyString => EmptyString
  | String c rest => String (lower_char c) (lower rest)
  end.

(** The dictionary that [deep_search_web] returns. *)
Record deep_search_result : Type := mk_deep_search_result
  { ds_main_query : string;
    ds_main_answer : option string;
    ds_error : option string;
    ds_main_results : list tavily_result;
    ds_follow_up_results : list (string * list tavily_result);
    ds_leads : list string }.

(** The loop over the first three main results. *)
Definition extract_leads (results : list tavily_result) : list string :=
  foldl (fun leads r =>
           let content := default "" (tr_content r) in
           if (contains "?" content
               || contains "however" (lower content)
               || contains "but" (lower content))%bool
           then leads ++ [String.substring 0 200 content +:+ "..."]
           else leads)
        [] (take 3 results).

(** The loop over the first three follow-up queries; the [k]-th search of
    the invocation is the one after the main search and the follow-ups
    before it. *)
Fixpoint follow_up_loop (tavily_client : tavily) (k : nat)
    (follow_ups : list string)
    (follow_up_results : list (string * list tavily_result))
    : result (list (string * list tavily_result)) :=
  match follow_ups with
  | [] => Ok follow_up_results
  | follow_up :: rest =>
      follow_response ← tavily_client k follow_up;
      follow_up_loop tavily_client (S k) rest
        (follow_up_results
         ++ [(follow_up, default [] (ta_results follow_response))])
  end.

Definition deep_search_web (api_key : option string) (service : tavily)
    (query : string) (follow_up_queries : option (list string))
    : deep_search_result :=
  match
    tavily_client ← get_tavily_client api_key service;
    main_response ← tavily_client 0%nat query;
    let main_results := default [] (ta_results main_response) in
    let leads := extract_leads main_results in
    follow_up_results ←
      follow_up_loop tavily_client 1
        (take 3 (default [] follow_up_queries)) [];
    Ok (mk_deep_search_result query
          (Some (default "" (ta_answer main_response))) None main_results
          follow_up_results leads)
  with
  | Ok results => results
  | Raise e => mk_deep_search_result query None (Some e) [] [] []
  end.

(** ** src/utils/memory.py: the progress file *)

(** The files of the output directory, by path.  The clock and the
    rendering of a confidence by the format [.0%] are inputs. *)
Section progress_file.
Variable format_percent : Qc -> string.

Record progress_store : Type := mk_progress_store
  { ps_conversation_id : string;
    ps_progress_file : string }.

(** The inner loop [for src in result.sources]. *)
Definition progress_sources (content : string) (sources : list Source.t)
    : string :=
  foldl (fun content src =>
           content +:+ "- [" +:+ default "Unknown" (Source.title src)
           +:+ "](" +:+ default "#" (Source.url src) +:+ ")" +:+ nl)
        content sources.

(** The inner loop [for gap in result.gaps]. *)
Definition progress_gaps (content : string) (gaps : list string) : string :=
  foldl (fun content gap => content +:+ "- " +:+ gap +:+ nl) content gaps.

(** The body of the loop [for result in results]. *)
Definition progress_result (content : string) (result : SubagentResult.t)
    : string :=
  let content :=
    content +:+ nl +:+ "#### " +:+ SubagentResult.task_id result +:+ nl
    +:+ "**Confidence**: "
    +:+ format_percent (SubagentResult.confidence result) +:+ nl +:+ nl
    +:+ "**Findings**:" +:+ nl +:+ SubagentResult.findings result
    +:+ nl +:+ nl +:+ "**Sources**:" +:+ nl in
  let content := progress_sources content (SubagentResult.sources result) in
  match SubagentResult.gaps result with
  | [] => content
  | gaps =>
      progress_gaps (content +:+ nl +:+ "**Gaps Identified**:" +:+ nl) gaps
  end.

(** [update_progress]: the new file system and the returned path;
    [started] and [time] are the two readings of the clock. *)
Definition store_update_progress (store : progress_store)
    (started time : string) (iteration : Z)
    (results : list SubagentResult.t) (synthesis : string)
    (fs : gmap string string) : gmap string string * string :=
  let content :=
    match fs !! ps_progress_file store with
    | Some content => content
    | None =>
        "# Research Progress" +:+ nl
        +:+ "**Session**: " +:+ ps_conversation_id store +:+ nl
        +:+ "**Started**: " +:+ started +:+ nl +:+ nl +:+ "---" +:+ nl
    end in
  let content :=
    content +:+ nl +:+ "## Iteration " +:+ pretty iteration +:+ nl
    +:+ "**Time**: " +:+ time +:+ nl +:+ nl
    +:+ "### Subagent Results" +:+ nl in
  let content := foldl progress_result content results in
  let content :=
    if decide (synthesis = "") then content
    else content +:+ nl +:+ "### Synthesis" +:+ nl +:+ synthesis +:+ nl in
  let content := content +:+ nl +:+ "---" +:+ nl in
  (<[ps_progress_file store := content]> fs, ps_progress_file store).
End progress_file.
(** * Auxiliary definitions for the statements *)

(** The finding that replaces an exception in the collecting loop. *)
Definition failed_result (task : SubagentTask.t) (e : exception) : SubagentResult.t :=
  SubagentResult.mk (SubagentTask.task_id task) ("Error: " +:+ e) [] 0%Qc
    ["Subagent execution failed"].

(** The finding that ends in the slot of a task. *)
Definition finding_of (task : SubagentTask.t) (run : agent_run) : SubagentResult.t :=
  match execute_subagent_task task run with
  | Ok r => r
  | Raise e => failed_result task e
  end.


(** A batch of four tasks whose third worker raises. *)
Definition sample_task (i : string) : SubagentTask.t :=
  SubagentTask.mk i "find the facts" "broad" "bullet list" "search_web"
    "stay on topic".

Definition batch4 : list SubagentTask.t :=
  [sample_task "t1"; sample_task "t2"; sample_task "t3"; sample_task "t4"].

Definition runs4 (i : nat) : agent_run :=
  match i with
  | 2%nat => AgentRaises "timeout"
  | _ =>
      AgentReplies "{}"
        (Decoded (mk_worker_data (Some "found") None (Some (Q2Qc (9 # 10)))
                    None))
  end.

(** Two sources with one URL and different titles, found by one worker. *)
Definition source_a : Source.t :=
  Source.mk (Some "https://example.org/p") (Some "First title") None None.

Definition source_b : Source.t :=
  Source.mk (Some "https://example.org/p") (Some "Second title") None None.

Definition result_ab : SubagentResult.t :=
  SubagentResult.mk "t1" "found" [source_a; source_b] (Q2Qc (9 # 10)) [].

(** The paragraph of one finding in the local synthesis. *)
Definition labelled_findings (r : SubagentResult.t) : string :=
  "### " +:+ SubagentResult.task_id r +:+ nl +:+ nl
  +:+ SubagentResult.findings r +:+ nl +:+ nl.

(** Concatenation of a list of strings. *)
Definition join (l : list string) : string := foldr String.append "" l.

(** A proposed next task with every field present, and an empty id and
    objective. *)
Definition blank_candidate : json :=
  JObj (<["task_id" := JStr ""]>
        (<["objective" := JStr ""]>
        (<["search_strategy" := JStr "broad"]>
        (<["output_format" := JStr "list"]>
        (<["tool_guidance" := JStr "search_web"]>
        (<["boundaries" := JStr "none"]> ∅)))))).

(** A proposed next task without the field [boundaries]. *)
Definition partial_candidate : json :=
  JObj (<["task_id" := JStr "n1"]> (<["objective" := JStr "dig"]> ∅)).

(** A candidate [task_data] is well formed for the task [t] when it is an
    object that maps each of the six field names to the string that [t]
    holds there. *)
Definition well_formed_for (task_data : json) (t : SubagentTask.t) : Prop :=
  exists m,
    task_data = JObj m
    /\ m !! "task_id" = Some (JStr (SubagentTask.task_id t))
    /\ m !! "objective" = Some (JStr (SubagentTask.objective t))
    /\ m !! "search_strategy" = Some (JStr (SubagentTask.search_strategy t))
    /\ m !! "output_format" = Some (JStr (SubagentTask.output_format t))
    /\ m !! "tool_guidance" = Some (JStr (SubagentTask.tool_guidance t))
    /\ m !! "boundaries" = Some (JStr (SubagentTask.boundaries t)).

(** A state in the first round, after the executor. *)
Definition state_round1 : AgentState.t :=
  {| AgentState.messages := [HumanMessage "what is new in batteries?"];
     AgentState.research_plan := None;
     AgentState.subagent_tasks := [sample_task "t1"];
     AgentState.subagent_results := [result_ab];
     AgentState.memory_context := "";
     AgentState.iteration_count := 1;
     AgentState.max_iterations := 3;
     AgentState.research_complete := false;
     AgentState.all_sources := [];
     AgentState.conversation_id := "c0ffee00";
     AgentState.output_dir := "./research_output";
     AgentState.provider := "openai" |}.

(** A file system on which every write succeeds. *)
Definition memory_ok : MemoryStore :=
  mk_MemoryStore (Ok "plan.md") (Ok "progress.md") (Ok "report.md").

(** The source that the 1-indexed citation [i] selects, if it selects one. *)
Definition cited (all_sources : list Source.t) (i : Z) : option Source.t :=
  if decide (0 < i <= Z.of_nat (length all_sources))%Z
  then all_sources !! Z.to_nat (i - 1)
  else None.

(** A well-formed task object with the given id. *)
Definition candidate (i : string) : json :=
  JObj (<["task_id" := JStr i]>
        (<["objective" := JStr "find the facts"]>
        (<["search_strategy" := JStr "broad"]>
        (<["output_format" := JStr "bullet list"]>
        (<["tool_guidance" := JStr "search_web"]>
        (<["boundaries" := JStr "stay on topic"]> ∅)))))).

(** A planning answer that decodes but asks for zero subagents, which the
    plan's constraint rejects. *)
Definition malformed_plan : llm_response plan_data :=
  Parsed (mk_plan_data (Some "simple") (Some 0) (Some "look it up") None).

(** A valid plan with one task, and a synthesis that asks for more
    research with one valid next task. *)
Definition plan_one_task : llm_response plan_data :=
  Parsed (mk_plan_data (Some "simple") (Some 1) (Some "look it up")
            (Some [candidate "p1"])).

Definition synthesis_wants_more : llm_response synthesis_data :=
  Parsed (mk_synthesis_data (Some "partial answer") (Some true)
            (Some [candidate "n1"])).

(** The upstream service that always plans one task and always asks for
    more research; every worker answers, every write succeeds. *)
Definition eager_oracle : Oracle :=
  {| planner := fun _ => plan_one_task;
     workers := fun _ _ =>
       AgentReplies "{}"
         (Decoded (mk_worker_data (Some "found") None None None));
     synthesizer := fun _ => synthesis_wants_more;
     citer := fun _ => Parsed (mk_citation_data None None);
     memory := fun _ => memory_ok |}.

(** The session that [main] starts with its default [--max-iterations]. *)
Definition default_session : AgentState.t :=
  main_initial_state "what is new in batteries?" "c0ffee00"
    "./research_output" "openai" 3.

(** The user query that the planning node finds in a state. *)
Definition user_query_of (state : AgentState.t) : string :=
  first_human_content (reverse (AgentState.messages state)).

(** The states from which the session with the eager service keeps going:
    there is a query, and the budget is the default one. *)
Definition looping (state : AgentState.t) : Prop :=
  user_query_of state <> "" /\ AgentState.max_iterations state = 3%Z.

(** * Further definitions for the statements *)

(** The update with which the synthesis node asks for another round. *)
Definition continue_update (iteration : Z) (all_sources : list Source.t)
    (new_tasks : list SubagentTask.t) : Update.t :=
  {| Update.messages :=
       [AIMessage ("Iteration " +:+ pretty iteration
                   +:+ " complete. Starting iteration "
                   +:+ pretty (iteration + 1)%Z +:+ " with "
                   +:+ pretty (length new_tasks) +:+ " new tasks.")];
     Update.research_plan := None;
     Update.subagent_tasks := Some new_tasks;
     Update.subagent_results := Some [];
     Update.memory_context := None;
     Update.iteration_count := Some (iteration + 1)%Z;
     Update.research_complete := Some false;
     Update.all_sources := Some all_sources |}.

(** The content of a human message. *)
Definition human_content (m : message) : option string :=
  match m with
  | HumanMessage content => Some content
  | AIMessage _ => None
  end.

(** The router lets the session leave the research loop. *)
Definition may_cite (state : AgentState.t) : Prop :=
  AgentState.research_complete state = true
  \/ (AgentState.max_iterations state <= AgentState.iteration_count state)%Z.


(** An upstream service whose synthesis answers are never valid JSON. *)
Definition mute_oracle : Oracle :=
  {| planner := fun _ => plan_one_task;
     workers := fun _ _ => AgentRaises "timeout";
     synthesizer := fun _ => Unparsable "Expecting value";
     citer := fun _ => Unparsable "Expecting value";
     memory := fun _ => memory_ok |}.

(** A decoded worker answer with a confidence of 3/2. *)
Definition overconfident_run : agent_run :=
  AgentReplies "raw text"
    (Decoded (mk_worker_data (Some "decoded findings") (Some [source_a])
                (Some (Q2Qc (3 # 2))) (Some ["a gap"]))).

(** The citation index [i] points outside a list of [n] sources. *)
Definition out_of_range (n : nat) (i : Z) : Prop :=
  (i <= 0 \/ Z.of_nat n < i)%Z.

(** The API key is set to a string that is not empty. *)
Definition key_set (api_key : option string) : Prop :=
  exists k, api_key = Some k /\ k <> "".
(** * Properties *)

(** ** The batch executor *)

Section batch.
Implicit Types (task : SubagentTask.t) (tasks : list SubagentTask.t).
Implicit Types (runs : nat -> agent_run) (r : SubagentResult.t).

Lemma construct_task_id i f s c g r :
  SubagentResult.construct i f s c g = Ok r -> SubagentResult.task_id r = i.
Proof.
  unfold SubagentResult.construct.
  destruct (SubagentResult.confidence_ok c); [|discriminate].
  intros [= <-]. reflexivity.
Qed.

Lemma execute_subagent_task_id task run r :
  execute_subagent_task task run = Ok r ->
  SubagentResult.task_id r = SubagentTask.task_id task.
Proof.
  destruct run as [e|content [data| |e]]; simpl; [discriminate| | |].
  - destruct (SubagentResult.construct _ (default content _) _ _ _) eqn:E.
    + intros [= <-]. eapply construct_task_id, E.
    + apply construct_task_id.
  - apply construct_task_id.
  - apply construct_task_id.
Qed.

(** Only a run that raises makes the coroutine raise: the three handlers
    build their findings from constants that pass validation. *)
Lemma execute_subagent_task_raise task run e :
  execute_subagent_task task run = Raise e <-> run = AgentRaises e.
Proof.
  split; [|intros ->; reflexivity].
  destruct run as [e'|content [data| |e']]; simpl.
  - congruence.
  - destruct (SubagentResult.construct _ (default content _) _ _ _);
      discriminate.
  - discriminate.
  - discriminate.
Qed.

Lemma finding_of_task_id task run :
  SubagentResult.task_id (finding_of task run) = SubagentTask.task_id task.
Proof.
  unfold finding_of.
  destruct (execute_subagent_task task run) eqn:E; [|reflexivity].
  eapply execute_subagent_task_id, E.
Qed.

(** The collecting loop, entered at index [length done] with the slots of
    the remaining tasks, appends one finding per slot and never runs out
    of [tasks]. *)
Lemma collect_results_spec runs todo :
  forall done valid_results,
    collect_results (done ++ todo) (length done)
      (imap (fun j task =>
               execute_subagent_task task (runs (length done + j)%nat))
            todo)
      valid_results
    = Ok (valid_results
          ++ imap (fun j task => finding_of task (runs (length done + j)%nat))
                  todo).
Proof.
  induction todo as [|task todo IH]; intros done valid_results.
  - simpl. by rewrite app_nil_r.
  - rewrite !imap_cons. simpl.
    pose proof (IH (done ++ [task])) as IH'.
    rewrite <-app_assoc, length_app in IH'. simpl in IH'.
    assert (Hext : forall B (f : agent_run -> SubagentTask.t -> B),
               imap ((fun j t => f (runs (length done + j)%nat) t) ∘ S) todo
               = imap (fun j t => f (runs (length done + 1 + j)%nat) t) todo).
    { intros B f. apply imap_ext. intros j t _. simpl.
      by replace (length done + S j)%nat with (length done + 1 + j)%nat
        by lia. }
    rewrite (Hext _ (fun run t => execute_subagent_task t run)).
    rewrite (Hext _ (fun run t => finding_of t run)).
    replace (S (length done)) with (length done + 1)%nat by lia.
    unfold finding_of at 1.
    rewrite Nat.add_0_r.
    destruct (execute_subagent_task task (runs (length done))) as [r|e].
    + rewrite IH'. by rewrite <-app_assoc.
    + unfold getitem. rewrite list_lookup_middle by done.
      simpl. rewrite IH'. by rewrite <-app_assoc.
Qed.

Lemma run_subagents_parallel_spec tasks runs :
  run_subagents_parallel tasks runs
  = Ok (imap (fun i task => finding_of task (runs i)) tasks).
Proof.
  unfold run_subagents_parallel, gather.
  exact (collect_results_spec runs tasks [] []).
Qed.
End batch.

(** C3. For every batch of tasks and whatever the workers do, the batch
    executor returns (it does not raise), the output has the length of the
    input, the finding at each position carries the [task_id] of the task at
    that position, and the empty batch gives the empty output. *)
Theorem batch_pairing (tasks : list SubagentTask.t) (runs : nat -> agent_run) :
  (exists out,
      run_subagents_parallel tasks runs = Ok out
      /\ length out = length tasks
      /\ forall i, SubagentResult.task_id <$> out !! i
                   = SubagentTask.task_id <$> tasks !! i)
  /\ run_subagents_parallel [] runs = Ok [].
Proof.
  split; [|reflexivity].
  eexists. split; [apply run_subagents_parallel_spec|].
  split; [apply length_imap|].
  intros i. rewrite list_lookup_imap.
  destruct (tasks !! i) as [task|]; simpl; [|reflexivity].
  f_equal. apply finding_of_task_id.
Qed.

(** C4, as the specification states it, fails: the finding of a worker that
    raised "timeout" has the fixed gap "Subagent execution failed"; no cause
    makes it "execution failed: <cause>". *)
Lemma failure_gap_counterexample :
  exists out r,
    run_subagents_parallel batch4 runs4 = Ok out
    /\ out !! 2%nat = Some r
    /\ SubagentResult.gaps r = ["Subagent execution failed"]
    /\ forall cause, SubagentResult.gaps r <> ["execution failed: " +:+ cause].
Proof.
  eexists _, _. split; [apply run_subagents_parallel_spec|].
  split; [reflexivity|]. split; [reflexivity|].
  intros cause. simpl. discriminate.
Qed.

(** C4, amended. If the worker of the task at position [i] raises [cause],
    the batch still returns; the finding at [i] has confidence 0, no
    sources, the gap "Subagent execution failed" and the findings text
    "Error: <cause>"; and every position whose worker returned a finding
    holds exactly that finding. *)
Theorem failure_isolation (tasks : list SubagentTask.t)
    (runs : nat -> agent_run) (i : nat) (task : SubagentTask.t)
    (cause : exception) :
  tasks !! i = Some task ->
  runs i = AgentRaises cause ->
  exists out,
    run_subagents_parallel tasks runs = Ok out
    /\ out !! i
       = Some (SubagentResult.mk (SubagentTask.task_id task)
                 ("Error: " +:+ cause) [] 0%Qc ["Subagent execution failed"])
    /\ forall j t r,
         tasks !! j = Some t ->
         execute_subagent_task t (runs j) = Ok r ->
         out !! j = Some r.
Proof.
  intros Hi Hrun. eexists. split; [apply run_subagents_parallel_spec|].
  split.
  - rewrite list_lookup_imap, Hi. simpl. unfold finding_of.
    by rewrite Hrun.
  - intros j t r Hj Hr. rewrite list_lookup_imap, Hj. simpl.
    unfold finding_of. by rewrite Hr.
Qed.

(** The batch of four whose third worker times out. *)
Lemma failure_isolation_witness :
  exists out,
    run_subagents_parallel batch4 runs4 = Ok out
    /\ out !! 2%nat
       = Some (SubagentResult.mk "t3" "Error: timeout" [] 0%Qc
                 ["Subagent execution failed"])
    /\ forall j t r,
         batch4 !! j = Some t ->
         execute_subagent_task t (runs4 j) = Ok r ->
         out !! j = Some r.
Proof.
  apply (failure_isolation batch4 runs4 2 (sample_task "t3") "timeout");
    reflexivity.
Defined.

(** ** Accumulating sources *)

Section sources.
Implicit Types (acc l : list Source.t) (rs : list SubagentResult.t).

Lemma collect_sources_cons acc src l :
  collect_sources acc (src :: l)
  = collect_sources (if decide (src ∈ acc) then acc else acc ++ [src]) l.
Proof. reflexivity. Qed.

Lemma elem_of_collect_sources l : forall acc x,
  x ∈ collect_sources acc l <-> x ∈ acc \/ x ∈ l.
Proof.
  induction l as [|src l IH]; intros acc x.
  - simpl. rewrite elem_of_nil. tauto.
  - rewrite collect_sources_cons, IH, elem_of_cons.
    destruct (decide (src ∈ acc)) as [Hin|Hnin].
    + split; [tauto|]. intros [?|[->|?]]; tauto.
    + rewrite elem_of_app, list_elem_of_singleton. tauto.
Qed.

(** Sources that are all known already leave the list as it is. *)
Lemma collect_sources_known l : forall acc,
  (forall x, x ∈ l -> x ∈ acc) -> collect_sources acc l = acc.
Proof.
  induction l as [|src l IH]; intros acc Hl; [reflexivity|].
  rewrite collect_sources_cons.
  rewrite decide_True by (apply Hl; left).
  apply IH. intros x Hx. apply Hl. by right.
Qed.

(** The list only grows at its end, by sources that are new and pairwise
    different. *)
Lemma collect_sources_extends l : forall acc,
  exists added,
    collect_sources acc l = acc ++ added
    /\ NoDup added
    /\ forall x, x ∈ added -> x ∉ acc.
Proof.
  induction l as [|src l IH]; intros acc.
  - exists []. simpl. rewrite app_nil_r. split; [done|].
    split; [constructor|]. intros x Hx. by apply elem_of_nil in Hx.
  - rewrite collect_sources_cons.
    destruct (decide (src ∈ acc)) as [Hin|Hnin]; [apply IH|].
    destruct (IH (acc ++ [src])) as (added & Heq & Hnd & Hnew).
    exists (src :: added). rewrite Heq, <-app_assoc. split; [done|].
    split.
    + constructor; [|done]. intros Hsrc. apply (Hnew _ Hsrc).
      apply elem_of_app. right. by apply list_elem_of_singleton.
    + intros x [->|Hx]%elem_of_cons; [done|].
      intros Hacc. apply (Hnew _ Hx), elem_of_app. by left.
Qed.

Lemma merge_sources_cons acc r rs :
  merge_sources acc (r :: rs)
  = merge_sources (collect_sources acc (SubagentResult.sources r)) rs.
Proof. reflexivity. Qed.

Lemma elem_of_merge_sources rs : forall acc x,
  x ∈ merge_sources acc rs
  <-> x ∈ acc \/ exists r, r ∈ rs /\ x ∈ SubagentResult.sources r.
Proof.
  induction rs as [|r rs IH]; intros acc x.
  - simpl. split; [by left|]. intros [?|(r & Hr & _)]; [done|].
    by apply elem_of_nil in Hr.
  - rewrite merge_sources_cons, IH, elem_of_collect_sources. split.
    + intros [[?|?]|(r' & Hr' & Hx)]; [by left| |].
      * right. exists r. split; [left|done].
      * right. exists r'. split; [by right|done].
    + intros [?|(r' & [->|Hr']%elem_of_cons & Hx)].
      * left. by left.
      * left. by right.
      * right. by exists r'.
Qed.

Lemma merge_sources_known rs : forall acc,
  (forall r x, r ∈ rs -> x ∈ SubagentResult.sources r -> x ∈ acc) ->
  merge_sources acc rs = acc.
Proof.
  induction rs as [|r rs IH]; intros acc Hrs; [reflexivity|].
  rewrite merge_sources_cons, collect_sources_known.
  - apply IH. intros r' x Hr'. apply Hrs. by right.
  - intros x. apply Hrs. left.
Qed.

Lemma merge_sources_extends rs : forall acc,
  exists added,
    merge_sources acc rs = acc ++ added
    /\ NoDup added
    /\ forall x, x ∈ added -> x ∉ acc.
Proof.
  induction rs as [|r rs IH]; intros acc.
  - exists []. simpl. rewrite app_nil_r. split; [done|].
    split; [constructor|]. intros x Hx. by apply elem_of_nil in Hx.
  - rewrite merge_sources_cons.
    destruct (collect_sources_extends (SubagentResult.sources r) acc)
      as (a1 & -> & Hnd1 & Hnew1).
    destruct (IH (acc ++ a1)) as (a2 & -> & Hnd2 & Hnew2).
    exists (a1 ++ a2). rewrite <-app_assoc. split; [done|]. split.
    + apply NoDup_app. split; [done|]. split; [|done].
      intros x Hx1 Hx2. apply (Hnew2 _ Hx2), elem_of_app. by right.
    + intros x [Hx|Hx]%elem_of_app; [by apply Hnew1|].
      intros Hacc. apply (Hnew2 _ Hx), elem_of_app. by left.
Qed.
End sources.

(** C6, as the specification states it, fails: two sources with the same
    URL and different titles are both kept, so the accumulated list is not
    deduplicated by URL. *)
Lemma dedup_by_url_counterexample :
  merge_sources [] [result_ab] = [source_a; source_b]
  /\ Source.url source_a = Source.url source_b
  /\ ~ NoDup (Source.url <$> merge_sources [] [result_ab]).
Proof.
  split; [reflexivity|]. split; [reflexivity|].
  intros Hnd. apply NoDup_cons in Hnd as [Hnin _].
  apply Hnin. left.
Qed.

(** C6, amended. Accumulation deduplicates by equality of the whole source
    (all its fields), first-seen first: the accumulated list is the old
    list followed by new, pairwise different sources; it holds exactly the
    old sources and those of the findings; and merging the same findings a
    second time changes nothing. *)
Theorem merge_sources_idempotent (acc : list Source.t)
    (rs : list SubagentResult.t) :
  (exists added,
      merge_sources acc rs = acc ++ added
      /\ NoDup added
      /\ forall x, x ∈ added -> x ∉ acc)
  /\ (forall x, x ∈ merge_sources acc rs
                <-> x ∈ acc \/ exists r, r ∈ rs /\ x ∈ SubagentResult.sources r)
  /\ merge_sources (merge_sources acc rs) rs = merge_sources acc rs.
Proof.
  split; [apply merge_sources_extends|].
  split; [apply elem_of_merge_sources|].
  apply merge_sources_known. intros r x Hr Hx.
  apply elem_of_merge_sources. right. by exists r.
Qed.

(** ** Validation of proposed tasks *)

Section validation.
Implicit Types (task_data : json) (t : SubagentTask.t).

Lemma str_field_Some m k s :
  SubagentTask.str_field m k = Some s <-> m !! k = Some (JStr s).
Proof.
  unfold SubagentTask.str_field.
  destruct (m !! k) as [[]|]; split; congruence.
Qed.

Lemma construct_Some task_data t :
  SubagentTask.construct task_data = Some t <-> well_formed_for task_data t.
Proof.
  unfold well_formed_for. split.
  - destruct task_data as [| | | | |m]; simpl; try discriminate.
    intros H. exists m. split; [done|].
    destruct (SubagentTask.str_field m "task_id") eqn:E1; [|done].
    destruct (SubagentTask.str_field m "objective") eqn:E2; [|done].
    destruct (SubagentTask.str_field m "search_strategy") eqn:E3; [|done].
    destruct (SubagentTask.str_field m "output_format") eqn:E4; [|done].
    destruct (SubagentTask.str_field m "tool_guidance") eqn:E5; [|done].
    destruct (SubagentTask.str_field m "boundaries") eqn:E6; [|done].
    simpl in H. injection H as <-. simpl.
    by rewrite <-!str_field_Some.
  - intros (m & -> & H1 & H2 & H3 & H4 & H5 & H6).
    apply str_field_Some in H1, H2, H3, H4, H5, H6. simpl.
    rewrite H1, H2, H3, H4, H5, H6. simpl. by destruct t.
Qed.

(** A candidate that can be constructed has passed the presence test. *)
Lemma construct_has_required_fields task_data t :
  SubagentTask.construct task_data = Some t ->
  has_required_fields task_data = true.
Proof.
  intros (m & -> & H1 & H2 & H3 & H4 & H5 & H6)%construct_Some.
  simpl. rewrite H1, H2, H3, H4, H5, H6. reflexivity.
Qed.

Lemma validate_next_tasks_from (l : list json) :
  forall new_tasks,
    foldl (fun new_tasks task_data =>
             if has_required_fields task_data then
               match SubagentTask.construct task_data with
               | Some t => new_tasks ++ [t]
               | None => new_tasks
               end
             else new_tasks)
          new_tasks l
    = new_tasks ++ omap SubagentTask.construct l.
Proof.
  induction l as [|task_data l IH]; intros new_tasks; simpl.
  - by rewrite app_nil_r.
  - rewrite IH.
    destruct (SubagentTask.construct task_data) as [t|] eqn:E.
    + rewrite (construct_has_required_fields _ _ E).
      by rewrite <-app_assoc.
    + by destruct (has_required_fields task_data).
Qed.

Lemma validate_next_tasks_omap (l : list json) :
  validate_next_tasks l = omap SubagentTask.construct l.
Proof. apply (validate_next_tasks_from l []). Qed.
End validation.

(** C9, as the specification states it, fails: a candidate whose id and
    objective are the empty string passes the validation and becomes the
    next batch. *)
Lemma blank_candidate_counterexample :
  validate_next_tasks [blank_candidate]
  = [SubagentTask.mk "" "" "broad" "list" "search_web" "none"]
  /\ Update.subagent_tasks
       (lead_researcher_synthesis_node state_round1
          (Parsed (mk_synthesis_data (Some "so far") (Some true)
                     (Some [blank_candidate])))
          memory_ok)
     = Some [SubagentTask.mk "" "" "broad" "list" "search_web" "none"].
Proof. split; vm_compute; reflexivity. Qed.

(** C9, amended. A proposed next task is accepted exactly when it is an
    object that holds a string under each of the six field names (the id,
    the objective and the four other directives); whether the id or the
    objective is empty is not checked.  The accepted batch is the list of
    the accepted candidates in their order, the others are dropped. *)
Theorem next_tasks_validated (next_tasks : list json) :
  validate_next_tasks next_tasks = omap SubagentTask.construct next_tasks
  /\ (forall t, t ∈ validate_next_tasks next_tasks
                <-> exists task_data,
                      task_data ∈ next_tasks /\ well_formed_for task_data t).
Proof.
  split; [apply validate_next_tasks_omap|].
  intros t. rewrite validate_next_tasks_omap, list_elem_of_omap.
  split; intros (d & Hd & Ht); exists d; (split; [done|]);
    by apply construct_Some.
Qed.

(** ** The synthesis node *)

Section synthesis.
Implicit Types (state : AgentState.t) (u : Update.t).

Lemma append_assoc (a b c : string) : (a +:+ b) +:+ c = a +:+ (b +:+ c).
Proof.
  induction a as [|x a IH]; [reflexivity|].
  change (String x ((a +:+ b) +:+ c) = String x (a +:+ (b +:+ c))).
  by rewrite IH.
Qed.

Lemma append_nil_r (a : string) : a +:+ "" = a.
Proof.
  induction a as [|x a IH]; [reflexivity|].
  change (String x (a +:+ "") = String x a). by rewrite IH.
Qed.

(** The loop that appends one paragraph per finding. *)
Lemma create_synthesis_loop (l : list SubagentResult.t) :
  forall synthesis,
    foldl (fun synthesis result =>
             synthesis +:+ "### " +:+ SubagentResult.task_id result
             +:+ nl +:+ nl +:+ SubagentResult.findings result
             +:+ nl +:+ nl)
          synthesis l
    = synthesis +:+ join (labelled_findings <$> l).
Proof.
  induction l as [|r l IH]; intros synthesis; simpl.
  - by rewrite append_nil_r.
  - rewrite IH. apply append_assoc.
Qed.

Lemma create_synthesis_nonempty (l : list SubagentResult.t) :
  _create_synthesis_from_results l <> "".
Proof.
  destruct l as [|r l]; [discriminate|].
  unfold _create_synthesis_from_results.
  rewrite create_synthesis_loop. discriminate.
Qed.

(** An update that marks the research complete routes to the citation. *)
Lemma complete_routes_to_citation state u :
  Update.research_complete u = Some true ->
  should_continue_research (Update.apply state u) = "citation"
  /\ next_node lead_synthesis (Update.apply state u) = Some citation_agent.
Proof.
  intros Hu.
  assert (should_continue_research (Update.apply state u) = "citation")
    as Hroute.
  { unfold should_continue_research. simpl. by rewrite Hu. }
  split; [done|]. simpl. rewrite Hroute. reflexivity.
Qed.

(** With no valid next task, the [try] block ends in the completing
    update, or raises. *)
Lemma synthesis_try_no_tasks results iteration max_iterations all_sources
    data memory :
  validate_next_tasks (default [] (sd_next_tasks data)) = [] ->
  match
    synthesis_try results iteration max_iterations all_sources
      (Parsed data) memory
  with
  | Ok u =>
      Update.research_complete u = Some true
      /\ Update.subagent_tasks u = None
  | Raise _ => True
  end.
Proof.
  intros Hnone. unfold synthesis_try.
  destruct (update_progress memory); simpl; [|done].
  rewrite Hnone.
  by destruct (default false (sd_needs_more_research data)
               && (iteration <? max_iterations)%Z)%bool.
Qed.
End synthesis.

(** C5. Whatever the upstream flag says, when no proposed next task
    survives the validation the synthesis node marks the research complete,
    proposes no tasks, and the router sends the session to the citation
    step instead of looping. *)
Theorem forced_termination (state : AgentState.t) (data : synthesis_data)
    (memory : MemoryStore) :
  validate_next_tasks (default [] (sd_next_tasks data)) = [] ->
  let u := lead_researcher_synthesis_node state (Parsed data) memory in
  Update.research_complete u = Some true
  /\ Update.subagent_tasks u = None
  /\ should_continue_research (Update.apply state u) = "citation"
  /\ next_node lead_synthesis (Update.apply state u) = Some citation_agent.
Proof.
  intros Hnone u.
  assert (Update.research_complete u = Some true
          /\ Update.subagent_tasks u = None) as [Hc Ht].
  { subst u. unfold lead_researcher_synthesis_node.
    pose proof (synthesis_try_no_tasks
                  (AgentState.subagent_results state)
                  (AgentState.iteration_count state)
                  (AgentState.max_iterations state)
                  (merge_sources (AgentState.all_sources state)
                     (AgentState.subagent_results state))
                  data memory Hnone) as H.
    destruct (synthesis_try _ _ _ _ _ _); [done|]. by split. }
  split; [done|]. split; [done|].
  by apply complete_routes_to_citation.
Qed.

(** Upstream says continue and proposes one task that lacks fields. *)
Lemma forced_termination_witness :
  let data :=
    mk_synthesis_data (Some "so far") (Some true) (Some [partial_candidate]) in
  let u := lead_researcher_synthesis_node state_round1 (Parsed data) memory_ok in
  sd_needs_more_research data = Some true
  /\ Update.research_complete u = Some true
  /\ Update.subagent_tasks u = None
  /\ should_continue_research (Update.apply state_round1 u) = "citation"
  /\ next_node lead_synthesis (Update.apply state_round1 u)
     = Some citation_agent.
Proof.
  intros data u. split; [reflexivity|].
  apply (forced_termination state_round1 data memory_ok).
  vm_compute. reflexivity.
Defined.

(** C8. On an unparsable synthesis response the node falls back to the
    locally computed synthesis and ends the research: the new context is
    the text built from the findings, the research is marked complete and
    routed to the citation step.  That text is "No research findings
    available." for an empty batch, otherwise a heading followed by one
    paragraph per finding, labelled by its task id, in order; it is never
    empty. *)
Theorem synthesis_fallback (state : AgentState.t) (e : exception)
    (memory : MemoryStore) :
  let results := AgentState.subagent_results state in
  let u := lead_researcher_synthesis_node state (Unparsable e) memory in
  Update.memory_context u = Some (_create_synthesis_from_results results)
  /\ Update.research_complete u = Some true
  /\ next_node lead_synthesis (Update.apply state u) = Some citation_agent
  /\ AgentState.memory_context (Update.apply state u) <> ""
  /\ _create_synthesis_from_results [] = "No research findings available."
  /\ forall r rs,
       _create_synthesis_from_results (r :: rs)
       = "## Research Findings" +:+ nl +:+ nl
         +:+ join (labelled_findings <$> r :: rs).
Proof.
  intros results u.
  split; [reflexivity|]. split; [reflexivity|].
  split; [by apply complete_routes_to_citation|].
  split; [apply create_synthesis_nonempty|].
  split; [reflexivity|].
  intros r rs. unfold _create_synthesis_from_results.
  rewrite create_synthesis_loop. by rewrite !append_assoc.
Qed.

(** ** The citation node *)

Section citation.
Implicit Types (all_sources : list Source.t) (citations_used : list Z).

(** Inside the guard of the comprehension the subscript is in range. *)
Lemma py_getitem_in_range all_sources (i : Z) :
  (0 < i <= Z.of_nat (length all_sources))%Z ->
  exists src,
    py_getitem all_sources (i - 1) = Ok src
    /\ all_sources !! Z.to_nat (i - 1) = Some src.
Proof.
  intros Hi. unfold py_getitem.
  destruct (Z.ltb_spec (i - 1) 0) as [?|_]; [lia|].
  destruct (Z.leb_spec 0 (i - 1)) as [_|?]; [|lia].
  destruct (Z.ltb_spec (i - 1) (Z.of_nat (length all_sources)))
    as [_|?]; [|lia].
  simpl. unfold getitem.
  destruct (all_sources !! Z.to_nat (i - 1)) as [src|] eqn:E; [by exists src|].
  apply lookup_ge_None in E. lia.
Qed.

Lemma cited_comprehension_spec all_sources citations_used :
  cited_comprehension all_sources citations_used
  = Ok (omap (cited all_sources) citations_used).
Proof.
  induction citations_used as [|i rest IH]; [reflexivity|].
  simpl. unfold cited at 1.
  destruct (decide (0 < i <= Z.of_nat (length all_sources))%Z) as [Hi|Hi].
  - destruct (Z.ltb_spec 0 i) as [_|?]; [|lia].
    destruct (Z.leb_spec i (Z.of_nat (length all_sources))) as [_|?]; [|lia].
    simpl.
    destruct (py_getitem_in_range all_sources i Hi) as (src & -> & ->).
    simpl. by rewrite IH.
  - destruct (Z.ltb_spec 0 i); destruct (Z.leb_spec i
      (Z.of_nat (length all_sources))); simpl; try done; lia.
Qed.
End citation.

(** C10. For every list of integer citation indices the selection of the
    cited sources returns (no index raises): an empty list selects all the
    accumulated sources, and otherwise the selection holds, in the order of
    the list, the source at position [i - 1] for each index [i] with
    [0 < i <= len(all_sources)] and nothing for the other indices.  The
    node saves its report with exactly that selection whenever the write
    succeeds. *)
Theorem citation_indices_safe (state : AgentState.t)
    (citations_used : list Z) (report : option string)
    (memory : MemoryStore) :
  let all_sources := AgentState.all_sources state in
  select_cited_sources all_sources [] = Ok all_sources
  /\ (forall i rest,
        select_cited_sources all_sources (i :: rest)
        = Ok (omap (cited all_sources) (i :: rest)))
  /\ exists out,
       select_cited_sources all_sources citations_used = Ok out
       /\ (forall src, src ∈ out -> src ∈ all_sources)
       /\ snd (citation_agent_node state
                 (Parsed (mk_citation_data report (Some citations_used)))
                 memory)
          = match save_final_report memory with
            | Ok _ =>
                Some (mk_final_report
                        (default (AgentState.memory_context state) report)
                        out)
            | Raise _ => None
            end.
Proof.
  intros all_sources.
  split; [reflexivity|].
  split; [intros i rest; apply cited_comprehension_spec|].
  assert (exists out,
             select_cited_sources all_sources citations_used = Ok out
             /\ forall src, src ∈ out -> src ∈ all_sources)
    as (out & Hout & Hsub).
  { destruct citations_used as [|i rest].
    - exists all_sources. by split.
    - eexists. split; [apply cited_comprehension_spec|].
      intros src (j & _ & Hj)%list_elem_of_omap.
      unfold cited in Hj. case_decide; [|done].
      by eapply list_elem_of_lookup_2. }
  exists out. split; [done|]. split; [done|].
  unfold citation_agent_node, citation_try. simpl.
  fold all_sources. rewrite Hout. simpl.
  by destruct (save_final_report memory).
Qed.

(** ** The planning node *)

Section planning.
Implicit Types (state : AgentState.t) (u : Update.t).

(** An update that only adds messages leaves the rest of the state. *)
Lemma apply_only_messages state msgs :
  Update.apply state (Update.only_messages msgs)
  = {| AgentState.messages := AgentState.messages state ++ msgs;
       AgentState.research_plan := AgentState.research_plan state;
       AgentState.subagent_tasks := AgentState.subagent_tasks state;
       AgentState.subagent_results := AgentState.subagent_results state;
       AgentState.memory_context := AgentState.memory_context state;
       AgentState.iteration_count := AgentState.iteration_count state;
       AgentState.max_iterations := AgentState.max_iterations state;
       AgentState.research_complete := AgentState.research_complete state;
       AgentState.all_sources := AgentState.all_sources state;
       AgentState.conversation_id := AgentState.conversation_id state;
       AgentState.output_dir := AgentState.output_dir state;
       AgentState.provider := AgentState.provider state |}.
Proof. reflexivity. Qed.

(** The edge out of the planning node follows the task list. *)
Lemma next_node_planning state :
  next_node lead_planning state
  = Some (match AgentState.subagent_tasks state with
          | [] => lead_synthesis
          | _ :: _ => subagent_executor
          end).
Proof.
  unfold next_node, has_tasks.
  by destruct (AgentState.subagent_tasks state).
Qed.

(** When the [try] block succeeds, the update carries the tasks of the
    new plan and sets the round counter to 1. *)
Lemma planning_try_ok response memory u :
  planning_try response memory = Ok u ->
  exists data tasks,
    response = Parsed data
    /\ construct_tasks (default [] (pd_subagent_tasks data)) = Ok tasks
    /\ Update.subagent_tasks u = Some tasks
    /\ Update.iteration_count u = Some 1%Z
    /\ exists plan,
         Update.research_plan u = Some plan
         /\ ResearchPlan.subagent_tasks plan = tasks.
Proof.
  destruct response as [e|data]; simpl; [discriminate|].
  destruct (construct_tasks _) as [tasks|e] eqn:Htasks; simpl;
    [|discriminate].
  unfold ResearchPlan.construct.
  destruct (_ && _)%bool; simpl; [|discriminate].
  destruct (save_plan memory) as [plan_file|e]; simpl; [|discriminate].
  intros [= <-]. exists data, tasks. simpl.
  split; [done|]. split; [done|]. split; [done|]. split; [done|].
  by eexists.
Qed.
(** When the [try] block raises, the node answers with a message only. *)
Lemma planning_node_failure state response memory e :
  planning_try response memory = Raise e ->
  lead_researcher_planning_node state response memory
  = Update.only_messages
      [AIMessage (if decide (user_query_of state = "")
                  then "No query found."
                  else "Error creating research plan: " +:+ e)].
Proof.
  intros Htry. unfold lead_researcher_planning_node, user_query_of.
  destruct (decide (_ = "")); [done|]. by rewrite Htry.
Qed.
End planning.

(** C7, as the specification states it, fails: after an unparsable planning
    response in a fresh session the state holds no plan at all, so no
    degraded plan with the strategy "planning failed: <reason>" exists. *)
Lemma degraded_plan_counterexample :
  let u :=
    lead_researcher_planning_node default_session
      (Unparsable "Expecting value: line 1 column 1 (char 0)") memory_ok in
  Update.research_plan u = None
  /\ ~ exists plan reason,
         AgentState.research_plan (Update.apply default_session u) = Some plan
         /\ ResearchPlan.subagent_tasks plan = []
         /\ ResearchPlan.strategy plan = "planning failed: " +:+ reason.
Proof.
  split; [reflexivity|].
  intros (plan & reason & Hplan & _). discriminate Hplan.
Qed.

(** C7, amended. When the planning response is unparsable or malformed (the
    [try] block raises [e]) the planner neither retries nor crashes: the
    node returns only a message, "Error creating research plan: <e>" when
    there is a query, and no plan; the plan, the tasks, the findings and
    the round counter of the state stay as they were, and the controller
    goes on to synthesis when the state holds no tasks and to execution of
    the tasks it holds otherwise. *)
Theorem planning_failure (state : AgentState.t)
    (response : llm_response plan_data) (memory : MemoryStore)
    (e : exception) :
  planning_try response memory = Raise e ->
  let u := lead_researcher_planning_node state response memory in
  let state' := Update.apply state u in
  u = Update.only_messages
        [AIMessage (if decide (user_query_of state = "")
                    then "No query found."
                    else "Error creating research plan: " +:+ e)]
  /\ AgentState.research_plan state' = AgentState.research_plan state
  /\ AgentState.subagent_tasks state' = AgentState.subagent_tasks state
  /\ AgentState.subagent_results state' = AgentState.subagent_results state
  /\ AgentState.iteration_count state' = AgentState.iteration_count state
  /\ next_node lead_planning state'
     = Some (match AgentState.subagent_tasks state with
             | [] => lead_synthesis
             | _ :: _ => subagent_executor
             end).
Proof.
  intros Htry.
  pose proof (planning_node_failure state response memory e Htry) as Hu.
  cbv zeta. rewrite Hu, next_node_planning, apply_only_messages.
  repeat (split; [reflexivity|]). reflexivity.
Qed.

(** A fresh session whose planning answer asks for zero subagents: the
    controller goes to synthesis over an empty batch. *)
Lemma planning_failure_witness :
  let u := lead_researcher_planning_node default_session malformed_plan
             memory_ok in
  let state' := Update.apply default_session u in
  u = Update.only_messages
        [AIMessage ("Error creating research plan: "
                    +:+ "ValidationError: estimated_subagents")]
  /\ AgentState.research_plan state' = None
  /\ AgentState.subagent_tasks state' = []
  /\ AgentState.subagent_results state' = []
  /\ AgentState.iteration_count state' = 0%Z
  /\ next_node lead_planning state' = Some lead_synthesis.
Proof.
  apply (planning_failure default_session malformed_plan memory_ok
           "ValidationError: estimated_subagents").
  reflexivity.
Defined.

(** ** The loop of the graph *)

(** The superstep of the planning node. *)
Lemma superstep_lead_planning (o : Oracle) (t : nat) (state : AgentState.t) :
  let state' :=
    Update.apply state
      (lead_researcher_planning_node state (planner o t) (memory o t)) in
  superstep o t lead_planning state
  = Ok (match AgentState.subagent_tasks state' with
        | [] => lead_synthesis
        | _ :: _ => subagent_executor
        end, state').
Proof.
  intros state'. unfold superstep, run_node.
  change (match next_node lead_planning state' with
          | Some n' => Ok (n', state')
          | None => Raise "no edge"
          end = Ok (match AgentState.subagent_tasks state' with
                    | [] => lead_synthesis
                    | _ :: _ => subagent_executor
                    end, state')).
  by rewrite next_node_planning.
Qed.

(** C2, as the specification states it, fails: when the synthesis of the
    first round decides to continue, the edge taken leads to the planning
    node, not to the executor; the planner is asked again, and the batch
    that reaches the executor is the new plan's task "p1", not the task
    "n1" that the synthesis proposed. *)
Lemma loop_back_counterexample :
  let u := lead_researcher_synthesis_node state_round1 synthesis_wants_more
             memory_ok in
  let state1 := Update.apply state_round1 u in
  Update.subagent_tasks u = Some [sample_task "n1"]
  /\ should_continue_research state1 = "continue"
  /\ next_node lead_synthesis state1 = Some lead_planning
  /\ next_node lead_synthesis state1 <> Some subagent_executor
  /\ exists state2,
       run eager_oracle 2 2 lead_synthesis state_round1
       = Ok (subagent_executor, state2)
       /\ AgentState.subagent_tasks state2 = [sample_task "p1"].
Proof.
  split; [vm_compute; reflexivity|].
  split; [vm_compute; reflexivity|].
  split; [vm_compute; reflexivity|].
  split; [vm_compute; discriminate|].
  eexists. split; vm_compute; reflexivity.
Qed.

(** C2, amended. When the synthesis decides to continue, the loop-back
    transition goes from the synthesis node to the planning node, in every
    round, and the planner is consulted again.  If its answer yields a
    plan, the next batch is that plan's tasks; the tasks proposed by the
    synthesis stay in place only if the planning fails. *)
Theorem loop_back_to_planning (o : Oracle) (t : nat) (state : AgentState.t) :
  let state1 :=
    Update.apply state
      (lead_researcher_synthesis_node state (synthesizer o t) (memory o t)) in
  let state2 :=
    Update.apply state1
      (lead_researcher_planning_node state1 (planner o (S t))
         (memory o (S t))) in
  should_continue_research state1 = "continue" ->
  superstep o t lead_synthesis state = Ok (lead_planning, state1)
  /\ superstep o (S t) lead_planning state1
     = Ok (match AgentState.subagent_tasks state2 with
           | [] => lead_synthesis
           | _ :: _ => subagent_executor
           end, state2)
  /\ (forall u,
        user_query_of state1 <> "" ->
        planning_try (planner o (S t)) (memory o (S t)) = Ok u ->
        exists plan,
          AgentState.research_plan state2 = Some plan
          /\ AgentState.subagent_tasks state2
             = ResearchPlan.subagent_tasks plan)
  /\ (forall e,
        planning_try (planner o (S t)) (memory o (S t)) = Raise e ->
        AgentState.subagent_tasks state2 = AgentState.subagent_tasks state1).
Proof.
  intros state1 state2 Hcont. split; [|split; [|split]].
  - unfold superstep. simpl. fold state1. by rewrite Hcont.
  - apply superstep_lead_planning.
  - intros u Hquery Htry. subst state2.
    unfold lead_researcher_planning_node. fold (user_query_of state1).
    rewrite decide_False by done. rewrite Htry.
    apply planning_try_ok in Htry
      as (data & tasks & _ & _ & Htasks & Hiter & plan & Hplan & Hpt).
    simpl. rewrite Htasks, Hplan. simpl.
    exists plan. by split.
  - intros e Htry. subst state2.
    by rewrite (planning_node_failure state1 _ _ e Htry).
Qed.

(** The first round of the eager service: synthesis proposes "n1", the
    planner is asked again and the executor gets "p1". *)
Lemma loop_back_to_planning_witness :
  exists state1 state2,
    superstep eager_oracle 2 lead_synthesis state_round1
    = Ok (lead_planning, state1)
    /\ superstep eager_oracle 3 lead_planning state1
       = Ok (subagent_executor, state2)
    /\ AgentState.subagent_tasks state1 = [sample_task "n1"]
    /\ AgentState.subagent_tasks state2 = [sample_task "p1"].
Proof.
  destruct (loop_back_to_planning eager_oracle 2 state_round1)
    as (H1 & H2 & _); [vm_compute; reflexivity|].
  eexists _, _. split; [exact H1|]. split; [exact H2|].
  repeat split; vm_compute; reflexivity.
Defined.

(** *** A session that never reaches the citation *)

Section eager.
Implicit Types (state : AgentState.t) (t : nat).

(** Assistant messages do not change the query that the planner reads. *)
Lemma user_query_of_apply state u content :
  Update.messages u = [AIMessage content] ->
  user_query_of (Update.apply state u) = user_query_of state.
Proof.
  intros Hu. unfold user_query_of. simpl. rewrite Hu.
  by rewrite reverse_app.
Qed.

Lemma run_step (o : Oracle) (fuel : nat) t (n : node) state :
  n <> END ->
  run o (S fuel) t n state
  = match superstep o t n state with
    | Ok (n', state') => run o fuel (S t) n' state'
    | Raise e => Raise e
    end.
Proof.
  intros Hn. destruct n; try done;
    simpl run; by destruct (superstep o t _ state) as [[??]|?].
Qed.

Lemma run_END (o : Oracle) (fuel : nat) t state :
  run o fuel t END state = Ok (END, state).
Proof. by destruct fuel. Qed.

Lemma run_plus (o : Oracle) (a b : nat) : forall t n state,
  run o (a + b) t n state
  = match run o a t n state with
    | Ok (n', state') => run o b (t + a) n' state'
    | Raise e => Raise e
    end.
Proof.
  induction a as [|a IH]; intros t n state.
  - simpl. by rewrite Nat.add_0_r.
  - destruct (decide (n = END)) as [->|Hn].
    + by rewrite !run_END.
    + change (S a + b)%nat with (S (a + b)). rewrite !run_step by done.
      destruct (superstep o t n state) as [[n' state']|e]; [|done].
      rewrite IH. by replace (t + S a)%nat with (S t + a)%nat by lia.
Qed.

Lemma eager_plan_constructed :
  planning_try plan_one_task memory_ok
  = Ok {| Update.messages :=
            [AIMessage ("Research plan created with 1 subagents. "
                        +:+ "Plan saved to plan.md")];
          Update.research_plan :=
            Some (ResearchPlan.mk "simple" 1 "look it up" [sample_task "p1"]);
          Update.subagent_tasks := Some [sample_task "p1"];
          Update.subagent_results := None;
          Update.memory_context := None;
          Update.iteration_count := Some 1%Z;
          Update.research_complete := None;
          Update.all_sources := None |}.
Proof. vm_compute. reflexivity. Qed.

Lemma eager_next_tasks :
  validate_next_tasks [candidate "n1"] = [sample_task "n1"].
Proof. vm_compute. reflexivity. Qed.

Lemma eager_planning_node state :
  user_query_of state <> "" ->
  lead_researcher_planning_node state plan_one_task memory_ok
  = {| Update.messages :=
         [AIMessage ("Research plan created with 1 subagents. "
                     +:+ "Plan saved to plan.md")];
       Update.research_plan :=
         Some (ResearchPlan.mk "simple" 1 "look it up" [sample_task "p1"]);
       Update.subagent_tasks := Some [sample_task "p1"];
       Update.subagent_results := None;
       Update.memory_context := None;
       Update.iteration_count := Some 1%Z;
       Update.research_complete := None;
       Update.all_sources := None |}.
Proof.
  intros Hquery. unfold lead_researcher_planning_node. cbv zeta.
  fold (user_query_of state). rewrite decide_False by done.
  by rewrite eager_plan_constructed.
Qed.

(** Planning: the counter is set to 1, whatever it was. *)
Lemma eager_planning_step state t :
  looping state ->
  exists state',
    superstep eager_oracle t lead_planning state
    = Ok (subagent_executor, state')
    /\ looping state'
    /\ AgentState.subagent_tasks state' = [sample_task "p1"]
    /\ AgentState.iteration_count state' = 1%Z.
Proof.
  intros [Hquery Hmax]. eexists. split; [|split; [split|split]].
  - rewrite superstep_lead_planning. cbv zeta.
    simpl planner. simpl memory.
    rewrite (eager_planning_node state Hquery). reflexivity.
  - by erewrite user_query_of_apply.
  - done.
  - done.
  - done.
Qed.

(** Execution: one finding, the counter is not touched. *)
Lemma eager_executor_step state t :
  looping state ->
  AgentState.subagent_tasks state = [sample_task "p1"] ->
  exists state',
    superstep eager_oracle t subagent_executor state
    = Ok (lead_synthesis, state')
    /\ looping state'
    /\ AgentState.iteration_count state' = AgentState.iteration_count state.
Proof.
  intros [Hquery Hmax] Htasks. eexists. split; [|split; [split|]].
  - unfold superstep, run_node, subagent_executor_node.
    rewrite Htasks, run_subagents_parallel_spec. reflexivity.
  - by erewrite user_query_of_apply.
  - done.
  - done.
Qed.

(** Synthesis in round 1 of 3: more research is granted and the loop goes
    back to the planning node. *)
Lemma eager_synthesis_step state t :
  looping state ->
  AgentState.iteration_count state = 1%Z ->
  exists state',
    superstep eager_oracle t lead_synthesis state
    = Ok (lead_planning, state')
    /\ looping state'
    /\ AgentState.iteration_count state' = 2%Z.
Proof.
  intros [Hquery Hmax] Hiter.
  assert (lead_researcher_synthesis_node state synthesis_wants_more memory_ok
          = {| Update.messages :=
                 [AIMessage ("Iteration 1 complete. Starting iteration 2 "
                             +:+ "with 1 new tasks.")];
               Update.research_plan := None;
               Update.subagent_tasks := Some [sample_task "n1"];
               Update.subagent_results := Some [];
               Update.memory_context := None;
               Update.iteration_count := Some 2%Z;
               Update.research_complete := Some false;
               Update.all_sources :=
                 Some (merge_sources (AgentState.all_sources state)
                         (AgentState.subagent_results state)) |}) as Hnode.
  { unfold lead_researcher_synthesis_node, synthesis_try,
      synthesis_wants_more.
    rewrite Hiter, Hmax. simpl sd_next_tasks. simpl default.
    rewrite eager_next_tasks. reflexivity. }
  eexists. split; [|split; [split|]].
  - unfold superstep, run_node. simpl synthesizer. simpl memory.
    rewrite Hnode. simpl mbind. unfold next_node, should_continue_research.
    simpl. rewrite Hmax. reflexivity.
  - by erewrite user_query_of_apply.
  - done.
  - done.
Qed.

(** One round: planning, execution, synthesis, and back to planning. *)
Lemma eager_round state t :
  looping state ->
  exists s1 s2 s3,
    run eager_oracle 1 t lead_planning state = Ok (subagent_executor, s1)
    /\ run eager_oracle 2 t lead_planning state = Ok (lead_synthesis, s2)
    /\ run eager_oracle 3 t lead_planning state = Ok (lead_planning, s3)
    /\ looping s2
    /\ AgentState.iteration_count s2 = 1%Z
    /\ looping s3.
Proof.
  intros Hloop.
  destruct (eager_planning_step state t Hloop)
    as (s1 & Hs1 & Hl1 & Ht1 & Hi1).
  destruct (eager_executor_step s1 (S t) Hl1 Ht1) as (s2 & Hs2 & Hl2 & Hi2).
  rewrite Hi1 in Hi2.
  destruct (eager_synthesis_step s2 (S (S t)) Hl2 Hi2)
    as (s3 & Hs3 & Hl3 & _).
  exists s1, s2, s3. simpl. rewrite Hs1. simpl. split; [done|].
  rewrite Hs2. simpl. split; [done|].
  rewrite Hs3. simpl. split; [done|]. split; [done|]. by split.
Qed.

Lemma eager_rounds (k : nat) :
  exists state,
    run eager_oracle (3 * k) 0 lead_planning default_session
    = Ok (lead_planning, state)
    /\ looping state.
Proof.
  induction k as [|k (state & Hrun & Hloop)].
  - exists default_session. split; [reflexivity|].
    split; [discriminate|reflexivity].
  - destruct (eager_round state (0 + 3 * k) Hloop)
      as (_ & _ & state' & _ & _ & Hround & _ & _ & Hloop').
    exists state'. split; [|done].
    replace (3 * S k)%nat with (3 * k + 3)%nat by lia.
    by rewrite run_plus, Hrun.
Qed.
End eager.

(** C1, evaluated on the code.  With the default budget of 3 and an
    upstream service that always returns a valid plan and always asks for
    more research with a valid next task, every synthesis pass sees the
    round counter at 1 (the planning node sets it back on each loop-back),
    and no number of supersteps brings the session to the citation node or
    to the end of the graph. *)
Theorem eager_session_never_ends :
  (forall k, exists state,
      run eager_oracle (3 * k + 2) 0 lead_planning default_session
      = Ok (lead_synthesis, state)
      /\ AgentState.iteration_count state = 1%Z
      /\ AgentState.max_iterations state = 3%Z)
  /\ (forall fuel, exists n state,
        run eager_oracle fuel 0 lead_planning default_session = Ok (n, state)
        /\ n <> citation_agent
        /\ n <> END).
Proof.
  split.
  - intros k. destruct (eager_rounds k) as (state & Hrun & Hloop).
    destruct (eager_round state (0 + 3 * k) Hloop)
      as (_ & s2 & _ & _ & Hs2 & _ & [_ Hmax] & Hiter & _).
    exists s2. by rewrite run_plus, Hrun.
  - intros fuel.
    assert (exists k r, fuel = (3 * k + r)%nat /\ (r < 3)%nat)
      as (k & r & -> & Hr).
    { exists (fuel / 3)%nat, (fuel mod 3)%nat.
      split; [apply Nat.div_mod_eq|]. apply Nat.mod_upper_bound. lia. }
    destruct (eager_rounds k) as (state & Hrun & Hloop).
    destruct (eager_round state (0 + 3 * k) Hloop)
      as (s1 & s2 & _ & Hs1 & Hs2 & _).
    rewrite run_plus, Hrun.
    destruct r as [|[|[|r]]]; [| | |lia].
    + by exists lead_planning, state.
    + by exists subagent_executor, s1.
    + by exists lead_synthesis, s2.
Qed.

(** * Further properties of the code *)

(** ** The nodes, path by path *)

Section nodes.
Implicit Types (state : AgentState.t) (u : Update.t).

(** The synthesis node asks for another round under five conditions. *)
Lemma synthesis_node_continue state data file t ts memory :
  update_progress memory = Ok file ->
  sd_needs_more_research data = Some true ->
  (AgentState.iteration_count state < AgentState.max_iterations state)%Z ->
  validate_next_tasks (default [] (sd_next_tasks data)) = t :: ts ->
  lead_researcher_synthesis_node state (Parsed data) memory
  = continue_update (AgentState.iteration_count state)
      (merge_sources (AgentState.all_sources state)
         (AgentState.subagent_results state))
      (t :: ts).
Proof.
  intros Hfile Hflag Hlt Htasks.
  unfold lead_researcher_synthesis_node, synthesis_try.
  rewrite Hfile, Hflag, Htasks. simpl.
  destruct (Z.ltb_spec (AgentState.iteration_count state)
              (AgentState.max_iterations state)); [reflexivity|lia].
Qed.

(** Every other path of the synthesis node ends the research, with a
    context that is not empty. *)
Lemma synthesis_node_cases state response memory :
  let u := lead_researcher_synthesis_node state response memory in
  let all_sources :=
    merge_sources (AgentState.all_sources state)
      (AgentState.subagent_results state) in
  (exists data file t ts,
      response = Parsed data
      /\ update_progress memory = Ok file
      /\ sd_needs_more_research data = Some true
      /\ (AgentState.iteration_count state
          < AgentState.max_iterations state)%Z
      /\ validate_next_tasks (default [] (sd_next_tasks data)) = t :: ts
      /\ u = continue_update (AgentState.iteration_count state) all_sources
               (t :: ts))
  \/ (exists synthesis msg,
        synthesis <> ""
        /\ u = research_complete_update all_sources synthesis msg).
Proof.
  intros u all_sources. subst u.
  destruct response as [e|data].
  { right. eexists _, _. split; [apply create_synthesis_nonempty|].
    reflexivity. }
  assert (forall msg,
             exists synthesis,
               synthesis <> ""
               /\ research_complete_update all_sources
                    (if decide (default "" (sd_synthesis data) = "")
                     then _create_synthesis_from_results
                            (AgentState.subagent_results state)
                     else default "" (sd_synthesis data)) msg
                  = research_complete_update all_sources synthesis msg)
    as Hcomplete.
  { intros msg. eexists. split; [|reflexivity].
    destruct (decide _); [apply create_synthesis_nonempty|done]. }
  destruct (update_progress memory) as [file|e] eqn:Hfile.
  2:{ right. unfold lead_researcher_synthesis_node, synthesis_try.
      rewrite Hfile. simpl. eexists _, _.
      split; [apply create_synthesis_nonempty|reflexivity]. }
  destruct (sd_needs_more_research data) as [[]|] eqn:Hflag.
  - destruct (Z.ltb_spec (AgentState.iteration_count state)
                (AgentState.max_iterations state)) as [Hlt|Hge].
    + destruct (validate_next_tasks (default [] (sd_next_tasks data)))
        as [|t ts] eqn:Htasks.
      * right. unfold lead_researcher_synthesis_node, synthesis_try.
        rewrite Hfile, Hflag, Htasks. simpl.
        destruct (_ <? _)%Z; simpl;
          destruct (Hcomplete ("Research complete after "
                      +:+ pretty (AgentState.iteration_count state)
                      +:+ " iterations. Proceeding to citation."))
            as (syn & Hsyn & Heq); exists syn; eexists; by split.
      * left. exists data, file, t, ts. repeat (split; [done|]).
        by apply (synthesis_node_continue _ _ file).
    + right. unfold lead_researcher_synthesis_node, synthesis_try.
      rewrite Hfile, Hflag. simpl.
      destruct (Z.ltb_spec (AgentState.iteration_count state)
                  (AgentState.max_iterations state)); [lia|]. simpl.
      destruct (Hcomplete ("Research complete after "
                  +:+ pretty (AgentState.iteration_count state)
                  +:+ " iterations. Proceeding to citation."))
        as (syn & Hsyn & Heq); exists syn; eexists; by split.
  - right. unfold lead_researcher_synthesis_node, synthesis_try.
    rewrite Hfile, Hflag. simpl.
    destruct (Hcomplete ("Research complete after "
                +:+ pretty (AgentState.iteration_count state)
                +:+ " iterations. Proceeding to citation."))
      as (syn & Hsyn & Heq); exists syn; eexists; by split.
  - right. unfold lead_researcher_synthesis_node, synthesis_try.
    rewrite Hfile, Hflag. simpl.
    destruct (Hcomplete ("Research complete after "
                +:+ pretty (AgentState.iteration_count state)
                +:+ " iterations. Proceeding to citation."))
      as (syn & Hsyn & Heq); exists syn; eexists; by split.
Qed.
End nodes.

Section shapes.
Implicit Types (state : AgentState.t) (u : Update.t).

(** What the planning node can return: one assistant message, and either
    nothing else or a plan with its tasks and the counter set to 1. *)
Lemma planning_node_shape state response memory :
  let u := lead_researcher_planning_node state response memory in
  (exists c, u = Update.only_messages [AIMessage c])
  \/ (exists c plan,
        u = {| Update.messages := [AIMessage c];
               Update.research_plan := Some plan;
               Update.subagent_tasks :=
                 Some (ResearchPlan.subagent_tasks plan);
               Update.subagent_results := None;
               Update.memory_context := None;
               Update.iteration_count := Some 1%Z;
               Update.research_complete := None;
               Update.all_sources := None |}).
Proof.
  unfold lead_researcher_planning_node. cbv zeta.
  destruct (decide _); [left; by eexists|].
  destruct response as [e|data]; simpl; [left; by eexists|].
  destruct (construct_tasks _) as [tasks|e]; simpl; [|left; by eexists].
  unfold ResearchPlan.construct.
  destruct (_ && _)%bool; simpl; [|left; by eexists].
  destruct (save_plan memory) as [plan_file|e]; simpl; [|left; by eexists].
  right. eexists _, (ResearchPlan.mk _ _ _ tasks). reflexivity.
Qed.

(** The executor node never raises; without tasks it only reports, with
    tasks it replaces the findings by one finding per task. *)
Lemma executor_node_shape state runs :
  exists c,
    subagent_executor_node state runs
    = Ok {| Update.messages := [AIMessage c];
            Update.research_plan := None;
            Update.subagent_tasks := None;
            Update.subagent_results :=
              match AgentState.subagent_tasks state with
              | [] => None
              | tasks =>
                  Some (imap (fun i task => finding_of task (runs i)) tasks)
              end;
            Update.memory_context := None;
            Update.iteration_count := None;
            Update.research_complete := None;
            Update.all_sources := None |}.
Proof.
  unfold subagent_executor_node.
  destruct (AgentState.subagent_tasks state) as [|task tasks];
    [by eexists|].
  rewrite run_subagents_parallel_spec. by eexists.
Qed.

(** The citation node only reports. *)
Lemma citation_node_shape state response memory :
  exists c,
    (citation_agent_node state response memory).1
    = Update.only_messages [AIMessage c].
Proof.
  unfold citation_agent_node.
  destruct (citation_try _ _ response memory) as [[u saved]|e] eqn:Htry;
    [|by eexists].
  unfold citation_try in Htry. destruct response as [e|data]; [done|].
  destruct (select_cited_sources _ _); simpl in Htry; [|done].
  destruct (save_final_report memory); simpl in Htry; [|done].
  injection Htry as <- _. by eexists.
Qed.

(** Every node adds exactly one assistant message, and only the synthesis
    node touches the accumulated sources, by merging the findings in. *)
Lemma run_node_shape (o : Oracle) t (n : node) state u :
  run_node o t n state = Ok u ->
  (exists c, Update.messages u = [AIMessage c])
  /\ (Update.all_sources u = None
      \/ Update.all_sources u
         = Some (merge_sources (AgentState.all_sources state)
                   (AgentState.subagent_results state))).
Proof.
  destruct n; simpl.
  - intros [= <-].
    destruct (planning_node_shape state (planner o t) (memory o t))
      as [(c & ->)|(c & plan & ->)]; (split; [by eexists|by left]).
  - destruct (executor_node_shape state (workers o t)) as (c & ->).
    intros [= <-]. split; [by eexists|by left].
  - intros [= <-].
    destruct (synthesis_node_cases state (synthesizer o t) (memory o t))
      as [(data & file & t' & ts & _ & _ & _ & _ & _ & ->)
         |(syn & msg & _ & ->)]; (split; [by eexists|by right]).
  - intros [= <-].
    destruct (citation_node_shape state (citer o t) (memory o t))
      as (c & ->).
    split; [by eexists|by left].
  - discriminate.
Qed.

(** The edge out of the synthesis node. *)
Lemma next_node_synthesis state :
  next_node lead_synthesis state
  = Some (if (AgentState.research_complete state
              || (AgentState.iteration_count state
                  >=? AgentState.max_iterations state)%Z)%bool
          then citation_agent else lead_planning).
Proof.
  unfold next_node, should_continue_research.
  by destruct (_ || _)%bool.
Qed.

(** A superstep is the node's update followed by an edge. *)
Lemma superstep_inv (o : Oracle) t (n n' : node) state state' :
  superstep o t n state = Ok (n', state') ->
  exists u,
    run_node o t n state = Ok u
    /\ state' = Update.apply state u
    /\ next_node n state' = Some n'.
Proof.
  unfold superstep. destruct (run_node o t n state) as [u|e]; simpl;
    [|discriminate].
  destruct (next_node n (Update.apply state u)) as [n1|] eqn:Hnext;
    [|discriminate].
  intros [= <- <-]. by exists u.
Qed.

(** The superstep of the synthesis node. *)
Lemma superstep_lead_synthesis (o : Oracle) t state :
  let state' :=
    Update.apply state
      (lead_researcher_synthesis_node state (synthesizer o t) (memory o t)) in
  superstep o t lead_synthesis state
  = Ok (if (AgentState.research_complete state'
            || (AgentState.iteration_count state'
                >=? AgentState.max_iterations state')%Z)%bool
        then citation_agent else lead_planning, state').
Proof.
  intros state'. unfold superstep, run_node.
  change (match next_node lead_synthesis state' with
          | Some n' => Ok (n', state')
          | None => Raise "no edge"
          end = Ok (if (AgentState.research_complete state'
                        || (AgentState.iteration_count state'
                            >=? AgentState.max_iterations state')%Z)%bool
                    then citation_agent else lead_planning, state')).
  by rewrite next_node_synthesis.
Qed.


(** A property of states that every node keeps is kept by every run. *)
Lemma run_preserves (P : AgentState.t -> Prop) (o : Oracle) :
  (forall t n state u,
      P state -> run_node o t n state = Ok u -> P (Update.apply state u)) ->
  forall fuel t n state n' state',
    P state -> run o fuel t n state = Ok (n', state') -> P state'.
Proof.
  intros Hnode. induction fuel as [|fuel IH]; intros t n state n' state' HP.
  - simpl. by intros [= _ <-].
  - destruct (decide (n = END)) as [->|Hn].
    + rewrite run_END. by intros [= _ <-].
    + rewrite run_step by done.
      destruct (superstep o t n state) as [[n1 s1]|e] eqn:Hstep; [|done].
      apply superstep_inv in Hstep as (u & Hu & -> & _).
      apply IH. by eapply Hnode.
Qed.
End shapes.

(** ** Runs of the graph *)

Section steps.
Implicit Types (state : AgentState.t) (o : Oracle).


(** The executor leaves the counter and the budget alone. *)
Lemma executor_step o t state :
  exists state',
    superstep o t subagent_executor state = Ok (lead_synthesis, state')
    /\ AgentState.iteration_count state' = AgentState.iteration_count state
    /\ AgentState.max_iterations state' = AgentState.max_iterations state.
Proof.
  unfold superstep, run_node.
  destruct (executor_node_shape state (workers o t)) as (c & ->).
  by eexists.
Qed.








End steps.

Section invariants.
Implicit Types (state : AgentState.t) (o : Oracle).

Lemma merge_sources_NoDup (acc : list Source.t) rs :
  NoDup acc -> NoDup (merge_sources acc rs).
Proof.
  intros Hacc.
  destruct (merge_sources_extends rs acc) as (added & -> & Hadded & Hnew).
  apply NoDup_app. split; [done|]. split; [|done].
  intros x Hx Hx'. by apply (Hnew x).
Qed.

Lemma synthesis_to_citation o t state state' :
  superstep o t lead_synthesis state = Ok (citation_agent, state') ->
  may_cite state'.
Proof.
  rewrite superstep_lead_synthesis. cbv zeta.
  remember (Update.apply state
              (lead_researcher_synthesis_node state (synthesizer o t)
                 (memory o t))) as s1 eqn:Hs1.
  clear Hs1. unfold may_cite.
  destruct (AgentState.research_complete s1) eqn:Hcomplete.
  - intros [= <-]. by left.
  - simpl.
    destruct (Z.geb_spec (AgentState.iteration_count s1)
                (AgentState.max_iterations s1)); [|done].
    intros [= <-]. right. lia.
Qed.

(** The node entered is the citation only if the router allowed it. *)
Lemma citation_entered o fuel : forall t (n n' : node) state state',
  (n = citation_agent -> may_cite state) ->
  run o fuel t n state = Ok (n', state') ->
  n' = citation_agent -> may_cite state'.
Proof.
  induction fuel as [|fuel IH]; intros t n n' state state' Hn.
  - simpl. by intros [= <- <-].
  - destruct (decide (n = END)) as [->|Hne].
    + rewrite run_END. by intros [= <- <-].
    + rewrite run_step by done.
      destruct (superstep o t n state) as [[n1 s1]|e] eqn:Hstep; [|done].
      apply IH. intros ->. destruct n; try done.
      * rewrite superstep_lead_planning in Hstep. cbv zeta in Hstep.
        injection Hstep as Hn1 _.
        destruct (default _ _) in Hn1; discriminate.
      * destruct (executor_step o t state) as (s' & Hs' & _).
        rewrite Hs' in Hstep. done.
      * by apply (synthesis_to_citation o t state).
Qed.
End invariants.


(** X2. The accumulated sources are append-only along every run: the list
    of the starting state is a prefix of the list of every state reached
    from it. *)
Theorem all_sources_append_only (o : Oracle) (fuel t : nat) (n n' : node)
    (state state' : AgentState.t) :
  run o fuel t n state = Ok (n', state') ->
  AgentState.all_sources state `prefix_of` AgentState.all_sources state'.
Proof.
  apply (run_preserves
           (fun s => AgentState.all_sources state
                     `prefix_of` AgentState.all_sources s)); [|done].
  intros t1 n1 s u Hs Hu.
  destruct (run_node_shape o t1 n1 s u Hu) as [_ [Hnone|Hmerge]]; simpl.
  - by rewrite Hnone.
  - rewrite Hmerge. simpl. etrans; [exact Hs|].
    destruct (merge_sources_extends (AgentState.subagent_results s)
                (AgentState.all_sources s)) as (added & -> & _).
    by apply prefix_app_r.
Qed.

(** Three supersteps of the eager service. *)
Lemma all_sources_append_only_witness :
  exists n' state',
    run eager_oracle 3 0 lead_planning default_session = Ok (n', state')
    /\ AgentState.all_sources default_session
       `prefix_of` AgentState.all_sources state'.
Proof.
  destruct (run eager_oracle 3 0 lead_planning default_session)
    as [[n' state']|e] eqn:Hrun.
  - exists n', state'. split; [reflexivity|].
    exact (all_sources_append_only _ _ _ _ _ _ _ Hrun).
  - vm_compute in Hrun. discriminate.
Defined.

(** X3. If the accumulated sources hold no source twice, they hold none
    twice in any state reached by a run; a session started by
    [get_initial_state] has the empty list. *)
Theorem all_sources_no_duplicates (o : Oracle) (fuel t : nat) (n n' : node)
    (state state' : AgentState.t) :
  NoDup (AgentState.all_sources state) ->
  run o fuel t n state = Ok (n', state') ->
  NoDup (AgentState.all_sources state').
Proof.
  apply (run_preserves (fun s => NoDup (AgentState.all_sources s))).
  intros t1 n1 s u Hs Hu.
  destruct (run_node_shape o t1 n1 s u Hu) as [_ [Hnone|Hmerge]]; simpl.
  - by rewrite Hnone.
  - rewrite Hmerge. simpl. by apply merge_sources_NoDup.
Qed.

(** Three supersteps of the eager service. *)
Lemma all_sources_no_duplicates_witness :
  exists n' state',
    run eager_oracle 3 0 lead_planning default_session = Ok (n', state')
    /\ NoDup (AgentState.all_sources state').
Proof.
  destruct (run eager_oracle 3 0 lead_planning default_session)
    as [[n' state']|e] eqn:Hrun.
  - exists n', state'. split; [reflexivity|].
    refine (all_sources_no_duplicates _ _ _ _ _ _ _ _ Hrun).
    simpl. constructor.
  - vm_compute in Hrun. discriminate.
Defined.

(** X4. A run that starts at the planning node enters the citation node
    only in a state where the research is marked complete or the round
    counter has reached the budget. *)
Theorem citation_only_when_allowed (o : Oracle) (fuel t : nat)
    (state state' : AgentState.t) :
  run o fuel t lead_planning state = Ok (citation_agent, state') ->
  AgentState.research_complete state' = true
  \/ (AgentState.max_iterations state'
      <= AgentState.iteration_count state')%Z.
Proof.
  intros Hrun.
  by apply (citation_entered o fuel t lead_planning citation_agent
              state state').
Qed.

(** The first round with a synthesis answer that is not JSON. *)
Lemma citation_only_when_allowed_witness :
  exists state',
    run mute_oracle 3 0 lead_planning default_session
    = Ok (citation_agent, state')
    /\ (AgentState.research_complete state' = true
        \/ (AgentState.max_iterations state'
            <= AgentState.iteration_count state')%Z).
Proof.
  eexists. split; [vm_compute; reflexivity|].
  apply (citation_only_when_allowed mute_oracle 3 0 default_session).
  vm_compute. reflexivity.
Defined.

(** X5. No node adds a human message or changes the budget: in every state
    reached by a run the query that the planning node reads and
    [max_iterations] are those of the starting state. *)
Theorem query_and_budget_stable (o : Oracle) (fuel t : nat) (n n' : node)
    (state state' : AgentState.t) :
  run o fuel t n state = Ok (n', state') ->
  user_query_of state' = user_query_of state
  /\ AgentState.max_iterations state' = AgentState.max_iterations state.
Proof.
  apply (run_preserves
           (fun s => user_query_of s = user_query_of state
                     /\ AgentState.max_iterations s
                        = AgentState.max_iterations state)); [|done].
  intros t1 n1 s u [Hq Hm] Hu.
  destruct (run_node_shape o t1 n1 s u Hu) as [(c & Hc) _].
  split; [|done]. by rewrite (user_query_of_apply s u c Hc).
Qed.

(** Three supersteps of the eager service. *)
Lemma query_and_budget_stable_witness :
  exists n' state',
    run eager_oracle 3 0 lead_planning default_session = Ok (n', state')
    /\ user_query_of state' = "what is new in batteries?"
    /\ AgentState.max_iterations state' = 3%Z.
Proof.
  destruct (run eager_oracle 3 0 lead_planning default_session)
    as [[n' state']|e] eqn:Hrun.
  - exists n', state'. split; [reflexivity|].
    exact (query_and_budget_stable _ _ _ _ _ _ _ Hrun).
  - vm_compute in Hrun. discriminate.
Defined.





(** ** The synthesis node, all paths *)

(** X8. The synthesis node asks for another round exactly when the
    response decodes, the progress file is written, the upstream flag is
    true, the round counter is under the budget and at least one proposed
    task passes validation; it then hands over the validated tasks, clears
    the findings and raises the counter by one.  On every other path it
    marks the research complete. *)
Theorem synthesis_continues_iff (state : AgentState.t)
    (response : llm_response synthesis_data) (memory : MemoryStore) :
  let u := lead_researcher_synthesis_node state response memory in
  (Update.research_complete u = Some false
   <-> exists data file t ts,
         response = Parsed data
         /\ update_progress memory = Ok file
         /\ sd_needs_more_research data = Some true
         /\ (AgentState.iteration_count state
             < AgentState.max_iterations state)%Z
         /\ validate_next_tasks (default [] (sd_next_tasks data)) = t :: ts
         /\ Update.subagent_tasks u = Some (t :: ts)
         /\ Update.subagent_results u = Some []
         /\ Update.iteration_count u
            = Some (AgentState.iteration_count state + 1)%Z)
  /\ (Update.research_complete u = Some false
      \/ Update.research_complete u = Some true).
Proof.
  intros u. subst u.
  destruct (synthesis_node_cases state response memory)
    as [(data & file & t & ts & Hresp & Hfile & Hflag & Hlt & Htasks & Hu)
       |(syn & msg & _ & Hu)].
  - rewrite Hu. split; [|by left]. split; [|done]. intros _.
    exists data, file, t, ts. by repeat (split; [done|]).
  - split; [|right; by rewrite Hu]. split; [by rewrite Hu|].
    intros (data & file & t & ts & -> & Hfile & Hflag & Hlt & Htasks & _).
    rewrite (synthesis_node_continue state data file t ts memory) in Hu
      by done.
    discriminate Hu.
Qed.

(** X9. Whatever the upstream answers, the synthesis node either asks for
    another round and leaves the stored context alone, or ends the research
    with a context that is not the empty string (an empty or missing
    synthesis is replaced by the text built from the findings). *)
Theorem synthesis_context_never_empty (state : AgentState.t)
    (response : llm_response synthesis_data) (memory : MemoryStore) :
  let u := lead_researcher_synthesis_node state response memory in
  (Update.research_complete u = Some false
   /\ Update.memory_context u = None)
  \/ (Update.research_complete u = Some true
      /\ exists synthesis,
           Update.memory_context u = Some synthesis /\ synthesis <> "").
Proof.
  intros u. subst u.
  destruct (synthesis_node_cases state response memory)
    as [(data & file & t & ts & _ & _ & _ & _ & _ & ->)
       |(syn & msg & Hsyn & ->)].
  - by left.
  - right. split; [done|]. by exists syn.
Qed.

(** ** The planning node *)

Section planning_extra.

Lemma construct_tasks_mapM (l : list json) :
  construct_tasks l
  = match mapM SubagentTask.construct l with
    | Some ts => Ok ts
    | None => Raise "ValidationError: SubagentTask"
    end.
Proof.
  induction l as [|d l IH]; [reflexivity|]. simpl. rewrite IH.
  destruct (SubagentTask.construct d) as [t|]; [|reflexivity]. simpl.
  by destruct (mapM SubagentTask.construct l).
Qed.

Lemma mapM_omap_all {A B} (f : A -> option B) (l : list A) (k : list B) :
  mapM f l = Some k -> omap f l = k /\ length k = length l.
Proof.
  intros H%mapM_Some. induction H as [|x y l k Hxy _ [IH1 IH2]];
    [done|].
  split; [|simpl; by rewrite IH2].
  change (omap f (x :: l)) with
    (match f x with Some y => y :: omap f l | None => omap f l end).
  by rewrite Hxy, IH1.
Qed.

Lemma first_human_content_reverse (l : list message) :
  first_human_content (reverse l)
  = default "" (last (omap human_content l)).
Proof.
  induction l as [|m l IH] using rev_ind; [reflexivity|].
  rewrite reverse_app, omap_app. simpl.
  destruct m as [content|content]; simpl.
  - by rewrite last_snoc.
  - by rewrite app_nil_r.
Qed.
End planning_extra.

(** X10. Planning is all or nothing: when the planning response is
    accepted, every entry of its task list was well formed, so the batch
    has as many tasks as the response listed and is the batch that the
    validation of the synthesis node would keep; one entry that is not
    well formed rejects the whole plan. *)
Theorem planning_all_or_nothing (data : plan_data) (memory : MemoryStore) :
  let l := default [] (pd_subagent_tasks data) in
  (forall u,
      planning_try (Parsed data) memory = Ok u ->
      Update.subagent_tasks u = Some (validate_next_tasks l)
      /\ length (validate_next_tasks l) = length l)
  /\ ((exists d, d ∈ l /\ SubagentTask.construct d = None) ->
      planning_try (Parsed data) memory
      = Raise "ValidationError: SubagentTask").
Proof.
  intros l. split.
  - intros u Hu.
    apply planning_try_ok in Hu
      as (data' & tasks & [= <-] & Htasks & -> & _).
    fold l in Htasks. rewrite construct_tasks_mapM in Htasks.
    destruct (mapM SubagentTask.construct l) as [ts|] eqn:HmapM;
      [|discriminate].
    injection Htasks as ->.
    apply mapM_omap_all in HmapM as [Homap Hlen].
    by rewrite validate_next_tasks_omap, Homap.
  - intros (d & Hd & Hnone). simpl. fold l.
    rewrite construct_tasks_mapM.
    destruct (mapM SubagentTask.construct l) as [ts|] eqn:HmapM;
      [|reflexivity].
    apply mapM_Some in HmapM.
    apply list_elem_of_lookup in Hd as (i & Hi).
    destruct (Forall2_lookup_l _ _ _ _ _ HmapM Hi) as (t & _ & Ht).
    congruence.
Qed.

(** X11. The query that the planning node plans for is the content of the
    last human message of the state, and the empty string (for which the
    node answers "No query found." without a plan) when there is none. *)
Theorem user_query_is_last_human_message (state : AgentState.t)
    (response : llm_response plan_data) (memory : MemoryStore) :
  user_query_of state
  = default "" (last (omap human_content (AgentState.messages state)))
  /\ (last (omap human_content (AgentState.messages state)) = None ->
      lead_researcher_planning_node state response memory
      = Update.only_messages [AIMessage "No query found."]).
Proof.
  split; [apply first_human_content_reverse|].
  intros Hnone. unfold lead_researcher_planning_node. cbv zeta.
  rewrite first_human_content_reverse, Hnone. reflexivity.
Qed.

(** ** The worker *)

Section worker.
Implicit Types (task : SubagentTask.t) (r : SubagentResult.t).

Lemma confidence_ok_range (c : Qc) :
  SubagentResult.confidence_ok c = true <-> (0 <= c)%Qc /\ (c <= 1)%Qc.
Proof.
  unfold SubagentResult.confidence_ok. rewrite andb_true_iff.
  by rewrite !Qle_bool_iff.
Qed.

Lemma construct_confidence i f s c g r :
  SubagentResult.construct i f s c g = Ok r ->
  SubagentResult.confidence_ok (SubagentResult.confidence r) = true.
Proof.
  unfold SubagentResult.construct.
  destruct (SubagentResult.confidence_ok c) eqn:Hc; [|discriminate].
  by intros [= <-].
Qed.

Lemma execute_confidence task run r :
  execute_subagent_task task run = Ok r ->
  SubagentResult.confidence_ok (SubagentResult.confidence r) = true.
Proof.
  destruct run as [e|content [data| |e]]; simpl; [discriminate| | |].
  - destruct (SubagentResult.construct _ (default content _) _ _ _) eqn:E.
    + intros [= <-]. eapply construct_confidence, E.
    + apply construct_confidence.
  - apply construct_confidence.
  - apply construct_confidence.
Qed.

Lemma finding_of_confidence task run :
  SubagentResult.confidence_ok (SubagentResult.confidence (finding_of task run))
  = true.
Proof.
  unfold finding_of.
  destruct (execute_subagent_task task run) eqn:E; [|reflexivity].
  eapply execute_confidence, E.
Qed.
End worker.

(** X12. Every finding that the batch executor returns has a confidence
    between 0 and 1, whatever the workers reported. *)
Theorem findings_confidence_in_range (tasks : list SubagentTask.t)
    (runs : nat -> agent_run) :
  exists out,
    run_subagents_parallel tasks runs = Ok out
    /\ forall r, r ∈ out ->
         (0 <= SubagentResult.confidence r)%Qc
         /\ (SubagentResult.confidence r <= 1)%Qc.
Proof.
  eexists. split; [apply run_subagents_parallel_spec|].
  intros r (i & Hi)%list_elem_of_lookup.
  rewrite list_lookup_imap in Hi.
  destruct (tasks !! i) as [task|]; [|discriminate].
  injection Hi as <-. apply confidence_ok_range, finding_of_confidence.
Qed.

(** X13. A worker answer that decodes but reports a confidence outside
    [0, 1] is handled like an answer that is not JSON: the finding keeps
    the raw text of the answer, has no sources, the confidence 1/2 and the
    gap "Response was not in expected JSON format"; the decoded findings,
    sources and gaps are discarded. *)
Theorem out_of_range_confidence_degrades (task : SubagentTask.t)
    (content : string) (findings : option string)
    (sources : option (list Source.t)) (c : Qc)
    (gaps : option (list string)) :
  ~ ((0 <= c)%Qc /\ (c <= 1)%Qc) ->
  execute_subagent_task task
    (AgentReplies content
       (Decoded (mk_worker_data findings sources (Some c) gaps)))
  = Ok (SubagentResult.mk (SubagentTask.task_id task) content []
          (Q2Qc (5 # 10)) ["Response was not in expected JSON format"]).
Proof.
  intros Hc. simpl. unfold SubagentResult.construct at 1.
  destruct (SubagentResult.confidence_ok c) eqn:Hok.
  - by apply confidence_ok_range in Hok.
  - reflexivity.
Qed.

(** A confidence of 3/2. *)
Lemma out_of_range_confidence_degrades_witness :
  execute_subagent_task (sample_task "t1") overconfident_run
  = Ok (SubagentResult.mk "t1" "raw text" [] (Q2Qc (5 # 10))
          ["Response was not in expected JSON format"]).
Proof.
  apply (out_of_range_confidence_degrades (sample_task "t1") "raw text"
           (Some "decoded findings") (Some [source_a]) (Q2Qc (3 # 2))
           (Some ["a gap"])).
  intros [_ Hle]. vm_compute in Hle. by apply Hle.
Defined.

(** X14. A worker raises exactly when its agent run raised, with the same
    exception: every final message, whether it decodes or not, is turned
    into a finding for the task. *)
Theorem worker_failures_contained (task : SubagentTask.t) (run : agent_run) :
  (forall e, execute_subagent_task task run = Raise e <-> run = AgentRaises e)
  /\ ((exists r, execute_subagent_task task run = Ok r)
      <-> exists content decoded, run = AgentReplies content decoded).
Proof.
  split; [intros e; apply execute_subagent_task_raise|].
  split.
  - intros (r & Hr). destruct run as [e|content decoded]; [done|].
    by exists content, decoded.
  - intros (content & decoded & ->).
    destruct (execute_subagent_task task (AgentReplies content decoded))
      as [r|e] eqn:E; [by exists r|].
    by apply execute_subagent_task_raise in E.
Qed.

(** ** The citation node, all paths *)

Section citation_extra.

Lemma cited_out_of_range (all_sources : list Source.t) (i : Z) :
  out_of_range (length all_sources) i -> cited all_sources i = None.
Proof.
  unfold out_of_range, cited. intros Hi.
  destruct (decide _) as [Hin|]; [lia|done].
Qed.

Lemma omap_all_None {A B} (f : A -> option B) (l : list A) :
  Forall (fun x => f x = None) l -> omap f l = [].
Proof.
  induction 1 as [|x l Hx _ IH]; [done|].
  change (omap f (x :: l)) with
    (match f x with Some y => y :: omap f l | None => omap f l end).
  by rewrite Hx.
Qed.
End citation_extra.

(** X15. A citation list that is not empty but holds only indices outside
    [1, len(all_sources)] selects no source at all for the report, unlike
    the empty citation list, which selects every source. *)
Theorem stray_citations_select_nothing (all_sources : list Source.t)
    (i : Z) (rest : list Z) :
  Forall (out_of_range (length all_sources)) (i :: rest) ->
  select_cited_sources all_sources (i :: rest) = Ok []
  /\ select_cited_sources all_sources [] = Ok all_sources.
Proof.
  intros Hout. split; [|reflexivity].
  unfold select_cited_sources. rewrite cited_comprehension_spec.
  f_equal. apply omap_all_None.
  eapply Forall_impl; [exact Hout|]. apply cited_out_of_range.
Qed.

(** Two sources, cited as 0 and 7. *)
Lemma stray_citations_select_nothing_witness :
  select_cited_sources [source_a; source_b] [0; 7]%Z = Ok []
  /\ select_cited_sources [source_a; source_b] [] = Ok [source_a; source_b].
Proof.
  apply (stray_citations_select_nothing [source_a; source_b] 0 [7%Z]).
  repeat constructor; unfold out_of_range; simpl; lia.
Defined.

(** X16. The citation node changes nothing in the state but the messages,
    to which it adds one; it saves a final report exactly when the citation
    response decodes and the write succeeds, and otherwise saves none. *)
Theorem citation_report_saved_iff (state : AgentState.t)
    (response : llm_response citation_data) (memory : MemoryStore) :
  let out := citation_agent_node state response memory in
  (exists c, out.1 = Update.only_messages [AIMessage c])
  /\ (out.2 = None
      <-> (exists e, response = Unparsable e)
          \/ exists e, save_final_report memory = Raise e).
Proof.
  intros out. subst out. split; [apply citation_node_shape|].
  unfold citation_agent_node, citation_try.
  destruct response as [e|data].
  { split; [|done]. intros _. left. by exists e. }
  assert (exists sel,
             select_cited_sources (AgentState.all_sources state)
               (default [] (cd_citations_used data)) = Ok sel)
    as (sel & ->).
  { unfold select_cited_sources.
    destruct (default [] (cd_citations_used data)); [by eexists|].
    rewrite cited_comprehension_spec. by eexists. }
  simpl. destruct (save_final_report memory) as [file|e]; simpl.
  - split; [done|]. by intros [(e & He)|(e & He)].
  - split; [|done]. intros _. right. by exists e.
Qed.

(** ** The search tools *)

Section search.
Implicit Types (service : tavily) (api_key : option string).

Lemma get_tavily_client_ok api_key service :
  key_set api_key -> get_tavily_client api_key service = Ok service.
Proof. intros (k & -> & Hk). by destruct k. Qed.

Lemma get_tavily_client_raise api_key service :
  ~ key_set api_key ->
  get_tavily_client api_key service
  = Raise "TAVILY_API_KEY not found in environment variables".
Proof.
  intros Hkey. destruct api_key as [[|c k]|]; try reflexivity.
  destruct Hkey. by eexists.
Qed.

Lemma key_set_dec api_key : key_set api_key \/ ~ key_set api_key.
Proof.
  destruct api_key as [[|c k]|].
  - right. intros (k & [= <-] & Hk). done.
  - left. by eexists.
  - right. by intros (k & [=] & _).
Qed.

Lemma foldl_snoc_map {A B} (f : A -> B) (l : list A) : forall init,
  foldl (fun acc x => acc ++ [f x]) init l = init ++ (f <$> l).
Proof.
  induction l as [|x l IH]; intros init; simpl.
  - by rewrite app_nil_r.
  - by rewrite IH, <-app_assoc.
Qed.

Lemma search_web_loop_spec (results : list tavily_result) :
  forall i results_text,
    search_web_loop i results results_text
    = results_text
      +:+ join (imap (fun j r => search_web_entry (i + j) r) results).
Proof.
  induction results as [|r results IH]; intros i results_text.
  - simpl. by rewrite append_nil_r.
  - rewrite imap_cons. simpl search_web_loop. rewrite IH.
    rewrite Nat.add_0_r.
    replace (imap ((fun j r => search_web_entry (i + j) r) ∘ S) results)
      with (imap (fun j r => search_web_entry (S i + j) r) results).
    2:{ apply imap_ext. intros j x _. simpl.
        by replace (i + S j)%nat with (S (i + j)) by lia. }
    unfold search_web_entry at 2. simpl join.
    by rewrite !append_assoc.
Qed.

Lemma length_append (a b : string) :
  String.length (a +:+ b) = (String.length a + String.length b)%nat.
Proof.
  induction a as [|c a IH]; [reflexivity|].
  change (S (String.length (a +:+ b))
          = S (String.length a + String.length b)).
  by rewrite IH.
Qed.

Lemma length_substring_0 (m : nat) : forall s,
  (String.length (String.substring 0 m s) <= m)%nat.
Proof.
  induction m as [|m IH]; intros [|c s]; simpl; try lia.
  specialize (IH s). lia.
Qed.

(** The leads: at most one per inspected result, each cut to 200
    characters before the dots. *)
Lemma extract_leads_from (l : list tavily_result) : forall leads,
  let out :=
    foldl (fun leads r =>
             let content := default "" (tr_content r) in
             if (contains "?" content
                 || contains "however" (lower content)
                 || contains "but" (lower content))%bool
             then leads ++ [String.substring 0 200 content +:+ "..."]
             else leads)
          leads l in
  (length out <= length leads + length l)%nat
  /\ (Forall (fun lead => (String.length lead <= 203)%nat) leads ->
      Forall (fun lead => (String.length lead <= 203)%nat) out).
Proof.
  induction l as [|r l IH]; intros leads; simpl.
  - split; [lia|done].
  - destruct (_ || _)%bool.
    + destruct (IH (leads
                    ++ [String.substring 0 200 (default "" (tr_content r))
                        +:+ "..."])) as [Hlen Hall].
      split; [etrans; [exact Hlen|]; rewrite length_app; simpl; lia|].
      intros Hleads. apply Hall, Forall_app. split; [done|].
      constructor; [|done]. rewrite length_append.
      change (String.length "...") with 3%nat.
      apply (Nat.add_le_mono_r _ 200 3), length_substring_0.
    + destruct (IH leads) as [Hlen Hall].
      split; [etrans; [exact Hlen|lia]|done].
Qed.

(** The follow-up loop succeeds exactly when each of its searches does,
    and then pairs every query with its results, in order. *)
Lemma follow_up_loop_spec (client : tavily) (follow_ups : list string) :
  forall k acc,
    (forall out,
        follow_up_loop client k follow_ups acc = Ok out ->
        out.*1 = acc.*1 ++ follow_ups)
    /\ ((exists out, follow_up_loop client k follow_ups acc = Ok out)
        <-> forall j q, follow_ups !! j = Some q ->
                        exists r, client (k + j)%nat q = Ok r).
Proof.
  induction follow_ups as [|q follow_ups IH]; intros k acc; simpl.
  - split.
    + intros out [= <-]. by rewrite app_nil_r.
    + split; [by intros _ j q'|]. intros _. by eexists.
  - destruct (client k q) as [r|e] eqn:Hkq; simpl.
    + destruct (IH (S k) (acc ++ [(q, default [] (ta_results r))]))
        as [IH1 IH2].
      split.
      * intros out Hout. rewrite (IH1 out Hout), fmap_app.
        simpl. by rewrite <-app_assoc.
      * rewrite IH2. split.
        -- intros H [|j] q' Hq'.
           ++ injection Hq' as <-. rewrite Nat.add_0_r. by exists r.
           ++ replace (k + S j)%nat with (S k + j)%nat by lia.
              by apply H.
        -- intros H j q' Hq'.
           replace (S k + j)%nat with (k + S j)%nat by lia.
           by apply (H (S j)).
    + split; [done|]. split; [by intros (out & Hout)|].
      intros H. destruct (H 0%nat q eq_refl) as (r & Hr).
      rewrite Nat.add_0_r in Hr. congruence.
Qed.
End search.

Section search_results.
Implicit Types (service : tavily) (api_key : option string).

(** The list that the structured search builds before its last test. *)
Lemma structured_results_types (answer : list search_entry)
    (l : list tavily_result) (e : search_entry) :
  Forall (fun a => se_type a = "answer") answer ->
  e ∈ foldl (fun results r => results ++ [source_entry r]) answer l ->
  se_type e <> "error".
Proof.
  intros Hanswer. rewrite foldl_snoc_map.
  intros [He|(r & -> & _)%list_elem_of_fmap]%elem_of_app; [|done].
  rewrite Forall_forall in Hanswer. by rewrite (Hanswer e He).
Qed.

Lemma filter_source_entries (l : list tavily_result) :
  filter (fun e => se_type e = "source") (source_entry <$> l)
  = source_entry <$> l.
Proof.
  induction l as [|r l IH]; [reflexivity|].
  rewrite fmap_cons, filter_cons_True by done. by rewrite IH.
Qed.
End search_results.

(** X17. The structured search never returns an empty list and never mixes
    an error entry with results: an entry of type "error" is the only entry
    of its list.  When the key is set and the search succeeds, the entries
    of type "source" are the results of the service, one per result and in
    order. *)
Theorem search_web_with_sources_never_empty (api_key : option string)
    (service : tavily) (query : string) :
  let out := search_web_with_sources api_key service query in
  out <> []
  /\ (forall e, e ∈ out -> se_type e = "error" -> out = [e])
  /\ (forall response,
        key_set api_key ->
        service 0%nat query = Ok response ->
        filter (fun e => se_type e = "source") out
        = source_entry <$> default [] (ta_results response)).
Proof.
  intros out. subst out. unfold search_web_with_sources.
  destruct (key_set_dec api_key) as [Hkey|Hkey].
  2:{ rewrite (get_tavily_client_raise _ _ Hkey). simpl.
      split; [done|]. split; [|done].
      by intros e ->%list_elem_of_singleton _. }
  rewrite (get_tavily_client_ok _ _ Hkey). simpl.
  destruct (service 0%nat query) as [response|e] eqn:Hsearch; simpl.
  2:{ split; [done|]. split; [|done].
      by intros e' ->%list_elem_of_singleton _. }
  set (answer := match ta_answer response with
                 | None | Some "" => []
                 | Some a => [mk_search_entry "AI Summary" "" a 1%Qc "answer"]
                 end).
  assert (Forall (fun a => se_type a = "answer") answer) as Hanswer.
  { subst answer. destruct (ta_answer response) as [[|c a]|];
      repeat constructor. }
  destruct (foldl _ answer (default [] (ta_results response)))
    as [|e0 results] eqn:Hfold.
  - split; [done|]. split; [by intros e ->%list_elem_of_singleton _|].
    intros response' _ [= <-]. rewrite foldl_snoc_map in Hfold.
    apply app_eq_nil in Hfold as [_ ->]. reflexivity.
  - split; [done|]. split.
    + intros e He Herr. exfalso. rewrite <-Hfold in He.
      by eapply structured_results_types.
    + intros response' _ [= <-]. rewrite <-Hfold, foldl_snoc_map.
      rewrite filter_app, filter_source_entries.
      replace (filter _ answer) with (@nil search_entry); [done|].
      subst answer. by destruct (ta_answer response) as [[|c a]|].
Qed.

(** X18. The deep search returns at most three leads, each at most 203
    characters long, and at most three follow-up results; when it reports
    an error, the main results, the follow-up results and the leads are all
    empty. *)
Theorem deep_search_web_bounds (api_key : option string) (service : tavily)
    (query : string) (follow_up_queries : option (list string)) :
  let out := deep_search_web api_key service query follow_up_queries in
  ds_main_query out = query
  /\ (length (ds_leads out) <= 3)%nat
  /\ Forall (fun lead => (String.length lead <= 203)%nat) (ds_leads out)
  /\ (length (ds_follow_up_results out) <= 3)%nat
  /\ (ds_error out <> None ->
      ds_main_results out = [] /\ ds_follow_up_results out = []
      /\ ds_leads out = []).
Proof.
  intros out. subst out. unfold deep_search_web.
  destruct (get_tavily_client api_key service) as [client|e]; simpl;
    [|by repeat (split; [done || lia|])].
  destruct (client 0%nat query) as [response|e]; simpl;
    [|by repeat (split; [done || lia|])].
  destruct (follow_up_loop client 1 (take 3 (default [] follow_up_queries)) [])
    as [follow|e] eqn:Hloop; simpl;
    [|by repeat (split; [done || lia|])].
  destruct (extract_leads_from (take 3 (default [] (ta_results response))) [])
    as [Hlen Hall].
  split; [done|]. split.
  { etrans; [exact Hlen|]. simpl. rewrite length_take. lia. }
  split; [by apply Hall|]. split; [|done].
  destruct (follow_up_loop_spec client
              (take 3 (default [] follow_up_queries)) 1 []) as [Hfst _].
  apply Hfst in Hloop. simpl in Hloop.
  rewrite <-(length_fmap fst), Hloop, length_take. lia.
Qed.

(** X19. The deep search is all or nothing: it reports no error exactly
    when the key is set, the main search succeeds and each of the searches
    for the first three follow-up queries succeeds; it then lists the
    follow-up queries it ran, in order.  One failing follow-up search
    discards the main results too. *)
Theorem deep_search_web_all_or_nothing (api_key : option string)
    (service : tavily) (query : string)
    (follow_up_queries : option (list string)) :
  let out := deep_search_web api_key service query follow_up_queries in
  let follow_ups := take 3 (default [] follow_up_queries) in
  (ds_error out = None
   <-> key_set api_key
       /\ (exists r, service 0%nat query = Ok r)
       /\ forall j q, follow_ups !! j = Some q ->
                      exists r, service (1 + j)%nat q = Ok r)
  /\ (ds_error out = None -> (ds_follow_up_results out).*1 = follow_ups).
Proof.
  intros out follow_ups. subst out. unfold deep_search_web.
  destruct (key_set_dec api_key) as [Hkey|Hkey].
  2:{ rewrite (get_tavily_client_raise _ _ Hkey). simpl.
      split; [|done]. split; [done|]. by intros [? _]. }
  rewrite (get_tavily_client_ok _ _ Hkey). simpl.
  destruct (service 0%nat query) as [response|e] eqn:Hmain; simpl.
  2:{ split; [|done]. split; [done|]. by intros (_ & (r & ?) & _). }
  destruct (follow_up_loop_spec service follow_ups 1 []) as [Hfst Hiff].
  fold follow_ups.
  destruct (follow_up_loop service 1 follow_ups []) as [follow|e] eqn:Hloop;
    simpl.
  - split; [|intros _; by apply Hfst].
    split; [|done]. intros _. split; [done|]. split; [by eexists|].
    apply Hiff. by eexists.
  - split; [|done]. split; [done|]. intros (_ & _ & Hall).
    apply Hiff in Hall as (out & Hout). discriminate.
Qed.

(** X20. The text search answers "Search error: <e>" when the key is
    missing or the search raises, "No results found." when the service has
    no results, and otherwise a heading followed by one entry per result,
    numbered from 1 in the order of the service. *)
Theorem search_web_text (api_key : option string) (service : tavily)
    (query : string) :
  search_web api_key service query
  = match get_tavily_client api_key service with
    | Raise e => "Search error: " +:+ e
    | Ok client =>
        match client 0%nat query with
        | Raise e => "Search error: " +:+ e
        | Ok response =>
            match ta_results response with
            | Some (r :: rest) =>
                "Search results for: " +:+ query +:+ nl +:+ nl
                +:+ join (imap (fun i r => search_web_entry (S i) r)
                               (r :: rest))
            | _ => "No results found."
            end
        end
    end.
Proof.
  unfold search_web.
  destruct (get_tavily_client api_key service) as [client|e]; simpl;
    [|done].
  destruct (client 0%nat query) as [response|e]; simpl; [|done].
  destruct (ta_results response) as [[|r rest]|]; [done| |done].
  simpl default. rewrite search_web_loop_spec.
  by rewrite !append_assoc.
Qed.

(** ** The progress file *)

Section progress.
Variable format_percent : Qc -> string.

Lemma foldl_append_join {A} (f : A -> string) (l : list A) : forall acc,
  foldl (fun content x => content +:+ f x) acc l = acc +:+ join (f <$> l).
Proof.
  induction l as [|x l IH]; intros acc; simpl.
  - by rewrite append_nil_r.
  - by rewrite IH, append_assoc.
Qed.

Lemma progress_sources_app (content : string) (sources : list Source.t) :
  progress_sources content sources
  = content +:+ progress_sources "" sources.
Proof.
  unfold progress_sources.
  rewrite (foldl_append_join
             (fun src => "- [" +:+ default "Unknown" (Source.title src)
                         +:+ "](" +:+ default "#" (Source.url src)
                         +:+ ")" +:+ nl) sources content).
  by rewrite (foldl_append_join _ sources "").
Qed.

Lemma progress_gaps_app (content : string) (gaps : list string) :
  progress_gaps content gaps = content +:+ progress_gaps "" gaps.
Proof.
  unfold progress_gaps.
  rewrite (foldl_append_join (fun gap => "- " +:+ gap +:+ nl) gaps content).
  by rewrite (foldl_append_join _ gaps "").
Qed.

(** What one finding adds does not depend on what is already there. *)
Lemma progress_result_app (content : string) (result : SubagentResult.t) :
  progress_result format_percent content result
  = content +:+ progress_result format_percent "" result.
Proof.
  unfold progress_result. cbv zeta.
  rewrite (progress_sources_app (content +:+ _)).
  rewrite (progress_sources_app ("" +:+ _)).
  destruct (SubagentResult.gaps result) as [|gap gaps].
  - by rewrite !append_assoc.
  - rewrite (progress_gaps_app (_ +:+ _)).
    rewrite (progress_gaps_app ((_ +:+ _) +:+ _)).
    by rewrite !append_assoc.
Qed.

Lemma foldl_progress_result (results : list SubagentResult.t) :
  forall content,
    foldl (progress_result format_percent) content results
    = content
      +:+ join (progress_result format_percent "" <$> results).
Proof.
  induction results as [|r results IH]; intros content; simpl.
  - by rewrite append_nil_r.
  - by rewrite IH, progress_result_app, append_assoc.
Qed.
End progress.

(** X21. The progress log is append-only: [update_progress] keeps the old
    content of the progress file (or, when the file does not exist, starts
    it with the session header) and adds after it a block that opens with
    the heading of the iteration and closes with a rule; every other file
    is left as it is, and the path of the progress file is returned. *)
Theorem update_progress_appends (format_percent : Qc -> string)
    (store : progress_store) (started time : string) (iteration : Z)
    (results : list SubagentResult.t) (synthesis : string)
    (fs : gmap string string) :
  let out :=
    store_update_progress format_percent store started time iteration
      results synthesis fs in
  let old :=
    default ("# Research Progress" +:+ nl
             +:+ "**Session**: " +:+ ps_conversation_id store +:+ nl
             +:+ "**Started**: " +:+ started +:+ nl +:+ nl +:+ "---" +:+ nl)
            (fs !! ps_progress_file store) in
  out.2 = ps_progress_file store
  /\ (forall path, path <> ps_progress_file store ->
                   out.1 !! path = fs !! path)
  /\ exists body,
       out.1 !! ps_progress_file store
       = Some (old +:+ nl +:+ "## Iteration " +:+ pretty iteration +:+ nl
               +:+ body +:+ nl +:+ "---" +:+ nl).
Proof.
  intros out old. subst out. unfold store_update_progress. cbv zeta.
  simpl. split; [done|]. split.
  { intros path Hpath. by rewrite lookup_insert_ne. }
  rewrite lookup_insert_eq.
  fold old.
  replace (match fs !! ps_progress_file store with
           | Some content => content
           | None => _
           end) with old by (subst old; by destruct (fs !! _)).
  rewrite foldl_progress_result.
  exists (("**Time**: " +:+ time +:+ nl +:+ nl
           +:+ "### Subagent Results" +:+ nl)
          +:+ join (progress_result format_percent "" <$> results)
          +:+ (if decide (synthesis = "") then ""
               else nl +:+ "### Synthesis" +:+ nl +:+ synthesis +:+ nl)).
  f_equal. destruct (decide (synthesis = "")).
  - rewrite !append_assoc. reflexivity.
  - rewrite !append_assoc. reflexivity.
Qed.

(** ** The round counter *)

Section counter.
Implicit Types (state : AgentState.t) (o : Oracle).

(** A node leaves the counter alone, sets it to 1 (planning), or raises it
    by one while it is under the budget (synthesis). *)
Lemma run_node_counter o t (n : node) state u :
  run_node o t n state = Ok u ->
  Update.iteration_count u = None
  \/ Update.iteration_count u = Some 1%Z
  \/ (Update.iteration_count u
      = Some (AgentState.iteration_count state + 1)%Z
      /\ (AgentState.iteration_count state
          < AgentState.max_iterations state)%Z).
Proof.
  destruct n; simpl.
  - intros [= <-].
    destruct (planning_node_shape state (planner o t) (memory o t))
      as [(c & ->)|(c & plan & ->)]; [by left|right; by left].
  - destruct (executor_node_shape state (workers o t)) as (c & ->).
    intros [= <-]. by left.
  - intros [= <-].
    destruct (synthesis_node_cases state (synthesizer o t) (memory o t))
      as [(data & file & t' & ts & _ & _ & _ & Hlt & _ & ->)
         |(syn & msg & _ & ->)]; [right; right; by split|by left].
  - intros [= <-].
    destruct (citation_node_shape state (citer o t) (memory o t))
      as (c & ->).
    by left.
  - discriminate.
Qed.
End counter.

(** X22. When the synthesis asks for another round but the raised counter
    reaches the budget, the router sends the session to the citation all
    the same: the proposed tasks are not executed, the research is not
    marked complete, and the stored context is the one from before this
    synthesis pass. *)
Theorem budget_exit_keeps_old_context (o : Oracle) (t : nat)
    (state : AgentState.t) :
  let u :=
    lead_researcher_synthesis_node state (synthesizer o t) (memory o t) in
  Update.research_complete u = Some false ->
  (AgentState.max_iterations state
   <= AgentState.iteration_count state + 1)%Z ->
  exists state1,
    superstep o t lead_synthesis state = Ok (citation_agent, state1)
    /\ AgentState.research_complete state1 = false
    /\ AgentState.memory_context state1 = AgentState.memory_context state
    /\ AgentState.iteration_count state1
       = (AgentState.iteration_count state + 1)%Z.
Proof.
  intros u Hcont Hbudget. subst u.
  rewrite superstep_lead_synthesis. cbv zeta.
  destruct (synthesis_node_cases state (synthesizer o t) (memory o t))
    as [(data & file & t' & ts & _ & _ & _ & _ & _ & Hu)
       |(syn & msg & _ & Hu)]; rewrite Hu in Hcont |- *; [|done].
  eexists. simpl.
  destruct (Z.geb_spec (AgentState.iteration_count state + 1)
              (AgentState.max_iterations state)); [|lia].
  by repeat split.
Qed.

(** A fresh state with a budget of 1, and an upstream that wants more. *)
Lemma budget_exit_keeps_old_context_witness :
  let state :=
    main_initial_state "q" "c0ffee00" "./research_output" "openai" 1 in
  exists state1,
    superstep eager_oracle 1 lead_synthesis state
    = Ok (citation_agent, state1)
    /\ AgentState.research_complete state1 = false
    /\ AgentState.memory_context state1 = ""
    /\ AgentState.iteration_count state1 = 1%Z.
Proof.
  intros state. apply (budget_exit_keeps_old_context eager_oracle 1 state).
  - vm_compute. reflexivity.
  - vm_compute. discriminate.
Defined.

(** X23. The round counter stays within the budget: if it starts between 0
    and the larger of 1 and [max_iterations], it is in that range in every
    state reached by a run. *)
Theorem iteration_count_bounded (o : Oracle) (fuel t : nat) (n n' : node)
    (state state' : AgentState.t) :
  (0 <= AgentState.iteration_count state
   <= Z.max 1 (AgentState.max_iterations state))%Z ->
  run o fuel t n state = Ok (n', state') ->
  (0 <= AgentState.iteration_count state'
   <= Z.max 1 (AgentState.max_iterations state'))%Z.
Proof.
  apply (run_preserves
           (fun s => (0 <= AgentState.iteration_count s
                      <= Z.max 1 (AgentState.max_iterations s))%Z)).
  intros t1 n1 s u Hs Hu. simpl.
  destruct (run_node_counter o t1 n1 s u Hu) as [->|[->|[-> Hlt]]];
    simpl; lia.
Qed.

(** Six supersteps of the eager service from a fresh session. *)
Lemma iteration_count_bounded_witness :
  exists n' state',
    run eager_oracle 6 0 lead_planning default_session = Ok (n', state')
    /\ (0 <= AgentState.iteration_count state'
        <= Z.max 1 (AgentState.max_iterations state'))%Z.
Proof.
  destruct (run eager_oracle 6 0 lead_planning default_session)
    as [[n' state']|e] eqn:Hrun.
  - exists n', state'. split; [reflexivity|].
    refine (iteration_count_bounded _ _ _ _ _ _ _ _ Hrun).
    vm_compute. split; discriminate.
  - vm_compute in Hrun. discriminate.
Defined.
